(** * Currency_parser: the pipeline of [currency_parser.py]

    A shallow embedding of the script that downloads exchange rates from the
    Bank of Russia, turns the XML answer into a table, prints statistics,
    draws a chart and exports a CSV file.

    The script is glue around [requests], [xml.etree.ElementTree],
    [datetime], [pandas] and [matplotlib].  What those libraries compute is
    collected in the class [Runtime]; the code of the script itself
    (control flow, the order of effects, which exception escapes where) is
    written out below, statement by statement, in a small monad [Py] of
    traces and exceptions. *)

From Stdlib Require Import ZArith List String Ascii Bool Floats.
From Stdlib Require Import Sorting Permutation Lia.
Import ListNotations.
Local Open Scope string_scope.
Local Open Scope list_scope.
Local Open Scope Z_scope.

(** ** Python values *)

(** The exceptions the script can meet.  All of them derive from
    [Exception], so the handler of [get_currency_rate] catches each one. *)
Inductive exn : Set :=
| OverflowError     (* timedelta / date arithmetic out of range *)
| ConnectionError   (* requests.get could not complete *)
| HTTPError         (* raise_for_status on a 4xx/5xx answer *)
| ParseError        (* ET.fromstring on text that is not XML *)
| AttributeError    (* None.text, None.replace *)
| TypeError         (* strptime(None, ...) *)
| ValueError        (* strptime / float on text they cannot read *)
| KeyError          (* df['date'] on a frame without that column *)
| IndexError        (* iloc on an empty column *)
| OSError.          (* a file that cannot be written *)

(** A [datetime] is kept as its proleptic Gregorian ordinal
    ([datetime.toordinal()], day 1 is 0001-01-01).  The format
    ['%d.%m.%Y'] has no time directive, so every parsed record is at
    midnight, and of [datetime.now()] the script only uses the day. *)
Definition datetime : Set := Z.

Definition MAXORDINAL : Z := 3652059.   (* date.max.toordinal() *)

(** [timedelta(days=days)] *)
Definition timedelta (days : Z) : exn + Z :=
  if Z.abs days <=? 999999999 then inr days else inl OverflowError.

(** [d - delta] on a [datetime] *)
Definition datetime_sub (d : datetime) (delta : Z) : exn + datetime :=
  let r := d - delta in
  if (1 <=? r) && (r <=? MAXORDINAL) then inr r else inl OverflowError.

(** [s.replace(old, new)] for one-character [old] and [new]. *)
Fixpoint replace (old new : ascii) (s : string) : string :=
  match s with
  | EmptyString => EmptyString
  | String c rest =>
      String (if Ascii.eqb c old then new else c) (replace old new rest)
  end.

(** [xml.etree.ElementTree.Element] *)
#[local] Set Warnings "-register-all".
Inductive Element : Set :=
  mkElement { tag : string;
              attrib : list (string * string);
              text : option string;
              children : list Element }.

(** [e.get(key)] *)
Fixpoint assoc {A : Type} (key : string) (kvs : list (string * A)) : option A :=
  match kvs with
  | [] => None
  | (k, v) :: rest => if String.eqb k key then Some v else assoc key rest
  end.

Definition get (e : Element) (key : string) : option string :=
  assoc key (attrib e).

(** [e.findall(name)]: the direct children with that tag, in document order. *)
Definition findall (e : Element) (name : string) : list Element :=
  filter (fun c => String.eqb (tag c) name) (children e).

(** [e.find(name)]: the first of them, or [None]. *)
Definition find (e : Element) (name : string) : option Element :=
  List.find (fun c => String.eqb (tag c) name) (children e).

(** [requests.Response] *)
Record Response : Set := { status_code : Z; content : string }.

(** One row of the table: the dict [{'date': ..., 'rate': ...}]. *)
Record row : Set := { date : datetime; rate : float }.

(** [pandas.DataFrame], as far as the script can build one: either the
    frame of an empty list, which has no columns at all, or a frame with
    the columns [date] and [rate].  Row labels are left out: the script
    resets them right after sorting and reads rows by position only. *)
Inductive DataFrame : Set :=
| NoColumns
| Frame (rows : list row).

Module pd.

Definition rows (df : DataFrame) : list row :=
  match df with
  | NoColumns => []
  | Frame rs => rs
  end.

(** [len(df)] *)
Definition len (df : DataFrame) : nat := List.length (rows df).

(** [df.empty] *)
Definition empty (df : DataFrame) : bool :=
  match rows df with
  | [] => true
  | _ => false
  end.

(** [df['date']], [df['rate']] *)
Definition col_date (df : DataFrame) : exn + list datetime :=
  match df with
  | NoColumns => inl KeyError
  | Frame rs => inr (map date rs)
  end.

Definition col_rate (df : DataFrame) : exn + list float :=
  match df with
  | NoColumns => inl KeyError
  | Frame rs => inr (map rate rs)
  end.

(** [s.iloc[0]] and [s.iloc[-1]] *)
Definition iloc_first {A : Type} (s : list A) : exn + A :=
  match s with
  | [] => inl IndexError
  | x :: _ => inr x
  end.

Definition iloc_last {A : Type} (s : list A) : exn + A :=
  match rev s with
  | [] => inl IndexError
  | x :: _ => inr x
  end.

(** [s.min()] and [s.max()] of a date column; [None] stands for [NaT],
    the answer for a column without values. *)
Definition date_min (s : list datetime) : option datetime :=
  match s with
  | [] => None
  | d :: ds => Some (fold_left Z.min ds d)
  end.

Definition date_max (s : list datetime) : option datetime :=
  match s with
  | [] => None
  | d :: ds => Some (fold_left Z.max ds d)
  end.

(** Reductions of a float column skip NaN ([skipna=True]). *)
Definition dropna (s : list float) : list float :=
  filter (fun x => negb (PrimFloat.is_nan x)) s.

(** Of two values that compare equal ([0.0] and [-0.0]) the reduction keeps
    the later one. *)
Definition fmin (a b : float) : float := if PrimFloat.ltb a b then a else b.
Definition fmax (a b : float) : float := if PrimFloat.ltb b a then a else b.

Definition min (s : list float) : float :=
  match dropna s with
  | [] => PrimFloat.nan
  | x :: xs => fold_left fmin xs x
  end.

Definition max (s : list float) : float :=
  match dropna s with
  | [] => PrimFloat.nan
  | x :: xs => fold_left fmax xs x
  end.

(** [s.mean()]: the sum of the values that are not NaN over their number.
    The sum is taken left to right, which is what numpy does for fewer
    than eight values; for longer columns numpy adds in another order and
    the last bits of the result may differ. *)
Definition mean (s : list float) : float :=
  let xs := dropna s in
  PrimFloat.div (fold_left PrimFloat.add xs PrimFloat.zero)
                (PrimFloat.of_uint63 (Uint63.of_Z (Z.of_nat (List.length xs)))).

(** [pd.DataFrame(data)] for a list of dicts *)
Definition DataFrame (data : list row) : DataFrame :=
  match data with
  | [] => NoColumns
  | _ => Frame data
  end.

End pd.

(** ** What the outside world sees *)

(** The lines the script prints, one constructor per [print] statement,
    carrying the values that are interpolated into the f-string. *)
Inductive message : Set :=
| MsgRequesting (date_req1 date_req2 : string)
| MsgReceived (n : nat)
| MsgFetchError (e : exn)
| MsgChartSaved (save_path : string)
| MsgNothingToAnalyze
| MsgAnalysisHeader
| MsgPeriod (first_day last_day : string)
| MsgCount (n : nat)
| MsgMin (r : float)
| MsgMax (r : float)
| MsgMean (r : float)
| MsgLast (r : float)
| MsgChange (change change_percent : float)
| MsgAnalyzing (currency_name : string) (days : Z)
| MsgDataSaved (csv_filename : string)
| MsgNoData
| MsgBanner
| MsgSeparator.

Module plt.
(** The calls into [matplotlib.pyplot], with the data handed over. *)
Inductive call : Set :=
| figure
| plot (xs : list datetime) (ys : list float)
| title (currency_name first_day last_day : string)
| xlabel
| ylabel
| grid
| xticks
| tight_layout
| annotate (last_rate : float) (last_date : datetime)
| savefig (save_path : string)
| close.
End plt.

Inductive event : Set :=
| Print (m : message)
| HttpGet (url : string) (params : list (string * string))
| Plt (c : plt.call)
| ToCsv (csv_filename : string) (file : string).

(** ** Library behaviour the script relies on *)

Class Runtime : Type := {
  (** [datetime.now()], read as a day *)
  now : datetime;
  (** [d.strftime(fmt)] *)
  strftime : datetime -> string -> string;
  (** [datetime.strptime(s, fmt)] *)
  strptime : string -> string -> exn + datetime;
  (** [float(s)] *)
  py_float : string -> exn + float;
  (** [repr] of a float, as [to_csv] writes it *)
  float_repr : float -> string;
  (** the answer of the network to [requests.get(url, params=params)] *)
  requests_get : string -> list (string * string) -> exn + Response;
  (** [ET.fromstring(content)] *)
  fromstring : string -> exn + Element;
  (** the row order [df.sort_values('date')] chooses; the call keeps the
      default [kind='quicksort'] *)
  sort_by_date : list row -> list row;
  (** whether writing a file at this path fails *)
  write_error : string -> option exn;
  (** whether a pyplot call that makes matplotlib place the ticks or lay
      the figure out ([xticks], [tight_layout]) raises on a figure that
      holds these dates and rates: it does when they are beyond what an
      axis can hold *)
  layout_error : plt.call -> list datetime -> list float -> option exn
}.

(** What pandas documents of [sort_values] whatever the [kind]: the rows are
    rearranged, and they come out in ascending order of the key. *)
Definition date_le (a b : row) : Prop := date a <= date b.

Record SortsByDate (sort : list row -> list row) : Prop := {
  sort_perm : forall l, Permutation (sort l) l;
  sort_sorted : forall l, StronglySorted date_le (sort l)
}.

(** Only [kind='stable'] and [kind='mergesort'] promise more: rows with the
    same date keep the order they had. *)
Definition same_day (d : datetime) (l : list row) : list row :=
  filter (fun r => date r =? d) l.

Definition KeepsTies (sort : list row -> list row) : Prop :=
  forall l d, same_day d (sort l) = same_day d l.

(** ** The monad of the script: a trace of events, then a value or an
    exception that is still travelling up. *)

Definition Py (A : Type) : Type := list event * (exn + A).

Definition ret {A : Type} (a : A) : Py A := ([], inr a).

Definition raise {A : Type} (e : exn) : Py A := ([], inl e).

Definition bind {A B : Type} (m : Py A) (k : A -> Py B) : Py B :=
  match m with
  | (t, inl e) => (t, inl e)
  | (t, inr a) => let (t', r) := k a in (t ++ t', r)
  end.

(** [try: m  except Exception as e: h e] *)
Definition try_except {A : Type} (m : Py A) (h : exn -> Py A) : Py A :=
  match m with
  | (t, inl e) => let (t', r) := h e in (t ++ t', r)
  | (t, inr a) => (t, inr a)
  end.

Definition lift {A : Type} (r : exn + A) : Py A := ([], r).

Definition emit (ev : event) : Py unit := ([ev], inr tt).

Definition print (m : message) : Py unit := emit (Print m).

Definition events {A : Type} (m : Py A) : list event := fst m.
Definition outcome {A : Type} (m : Py A) : exn + A := snd m.

Declare Scope py_scope.
Delimit Scope py_scope with py.
Notation "x <- m ;; k" := (bind m (fun x => k))
  (at level 100, m at next level, right associativity) : py_scope.
Notation "m ;; k" := (bind m (fun _ => k))
  (at level 100, right associativity) : py_scope.
Local Open Scope py_scope.

(** Code without effects (the body of the [for] loop) runs in [exn + _]. *)
Definition and_then {A B : Type} (r : exn + A) (k : A -> exn + B) : exn + B :=
  match r with
  | inl e => inl e
  | inr a => k a
  end.

Notation "x <-? r ;; k" := (and_then r (fun x => k))
  (at level 100, r at next level, right associativity) : py_scope.

(** [o.attr] where [o] may be [None] *)
Definition getattr {A : Type} (o : option A) : exn + A :=
  match o with
  | None => inl AttributeError
  | Some a => inr a
  end.

(** [bool(save_path)]: [None] and the empty string are false. *)
Definition truthy (s : option string) : option string :=
  match s with
  | Some EmptyString => None
  | other => other
  end.

(** [s.lower()] on ASCII *)
Definition lower_ascii (c : ascii) : ascii :=
  let n := nat_of_ascii c in
  if (Nat.leb 65 n && Nat.leb n 90)%bool then ascii_of_nat (n + 32) else c.

Fixpoint lower (s : string) : string :=
  match s with
  | EmptyString => EmptyString
  | String c rest => String (lower_ascii c) (lower rest)
  end.

Module requests.

(** [requests.get(url, params=params)] *)
Definition get `{Runtime} (url : string) (params : list (string * string))
  : Py Response :=
  emit (HttpGet url params) ;;
  lift (requests_get url params).

(** [response.raise_for_status()] *)
Definition raise_for_status (response : Response) : Py unit :=
  if (400 <=? status_code response) && (status_code response <? 600)
  then raise HTTPError
  else ret tt.

End requests.

(** [ts.strftime(fmt)] on what [min()]/[max()] of a date column return:
    [NaT] does not support [strftime]. *)
Definition Timestamp_strftime `{Runtime} (ts : option datetime) (fmt : string)
  : exn + string :=
  match ts with
  | None => inl ValueError
  | Some d => inr (strftime d fmt)
  end.

(** [df.sort_values('date')] *)
Definition sort_values `{Runtime} (df : DataFrame) : exn + DataFrame :=
  match df with
  | NoColumns => inl KeyError
  | Frame rs => inr (Frame (sort_by_date rs))
  end.

(** [df.reset_index(drop=True)]: new row labels, same rows. *)
Definition reset_index (df : DataFrame) : DataFrame := df.

(** ** [get_currency_rate] *)

(** The body of [for record in root.findall('Record')]. *)
Definition read_record `{Runtime} (record : Element) : exn + row :=
  let date := get record "Date" in
  value <-? getattr (find record "Value") ;;
  value_text <-? getattr (text value) ;;
  let rate := replace "," "." value_text in
  d <-? match date with
        | None => inl TypeError
        | Some s => strptime s "%d.%m.%Y"
        end ;;
  r <-? py_float rate ;;
  inr {| date := d; rate := r |}.

Fixpoint for_records `{Runtime} (records : list Element) (data : list row)
  : exn + list row :=
  match records with
  | [] => inr data
  | record :: rest =>
      r <-? read_record record ;;
      for_records rest (data ++ [r])
  end.

Definition url : string := "http://www.cbr.ru/scripts/XML_dynamic.asp".

Definition get_currency_rate `{Runtime} (currency_code : string) (days : Z)
  : Py (option DataFrame) :=
  let end_date := now in
  delta <- lift (timedelta days) ;;
  start_date <- lift (datetime_sub end_date delta) ;;
  let date_req1 := strftime start_date "%d/%m/%Y" in
  let date_req2 := strftime end_date "%d/%m/%Y" in
  let params := [("date_req1", date_req1);
                 ("date_req2", date_req2);
                 ("VAL_NM_RQ", currency_code)] in
  try_except
    (print (MsgRequesting date_req1 date_req2) ;;
     response <- requests.get url params ;;
     requests.raise_for_status response ;;
     root <- lift (fromstring (content response)) ;;
     data <- lift (for_records (findall root "Record") []) ;;
     let df := pd.DataFrame data in
     df <- lift (sort_values df) ;;
     let df := reset_index df in
     print (MsgReceived (pd.len df)) ;;
     ret (Some df))
    (fun e =>
     print (MsgFetchError e) ;;
     ret None).

(** What the [try] block makes of the body of an answer: its statements
    between the request and the last [print], none of which has an effect. *)
Definition parse `{Runtime} (body : string) : exn + DataFrame :=
  root <-? fromstring body ;;
  data <-? for_records (findall root "Record") [] ;;
  df <-? sort_values (pd.DataFrame data) ;;
  inr (reset_index df).

(** ** [plot_currency_rate] *)

(** A pyplot call that has matplotlib work on the axes of the figure. *)
Definition pyplot_layout `{Runtime} (c : plt.call) (xs : list datetime)
  (ys : list float) : Py unit :=
  emit (Plt c) ;;
  match layout_error c xs ys with
  | Some e => raise e
  | None => ret tt
  end.

Definition plot_currency_rate `{Runtime}
  (df : DataFrame) (currency_name : string) (save_path : option string)
  : Py unit :=
  emit (Plt plt.figure) ;;
  xs <- lift (pd.col_date df) ;;
  ys <- lift (pd.col_rate df) ;;
  emit (Plt (plt.plot xs ys)) ;;
  dates <- lift (pd.col_date df) ;;
  first_day <- lift (Timestamp_strftime (pd.date_min dates) "%d.%m.%Y") ;;
  last_day <- lift (Timestamp_strftime (pd.date_max dates) "%d.%m.%Y") ;;
  emit (Plt (plt.title currency_name first_day last_day)) ;;
  emit (Plt plt.xlabel) ;;
  emit (Plt plt.ylabel) ;;
  emit (Plt plt.grid) ;;
  pyplot_layout plt.xticks xs ys ;;
  pyplot_layout plt.tight_layout xs ys ;;
  rates <- lift (pd.col_rate df) ;;
  last_rate <- lift (pd.iloc_last rates) ;;
  last_date <- lift (pd.iloc_last dates) ;;
  emit (Plt (plt.annotate last_rate last_date)) ;;
  match truthy save_path with
  | Some path =>
      emit (Plt (plt.savefig path)) ;;
      match write_error path with
      | Some e => raise e
      | None => print (MsgChartSaved path)
      end
  | None => ret tt
  end ;;
  emit (Plt plt.close).

(** ** [analyze_currency_data] *)

Definition analyze_currency_data `{Runtime} (df : option DataFrame) : Py unit :=
  match df with
  | None => print MsgNothingToAnalyze
  | Some df =>
      if pd.empty df then print MsgNothingToAnalyze
      else
        print MsgAnalysisHeader ;;
        dates <- lift (pd.col_date df) ;;
        first_day <- lift (Timestamp_strftime (pd.date_min dates) "%d.%m.%Y") ;;
        last_day <- lift (Timestamp_strftime (pd.date_max dates) "%d.%m.%Y") ;;
        print (MsgPeriod first_day last_day) ;;
        print (MsgCount (pd.len df)) ;;
        rates <- lift (pd.col_rate df) ;;
        print (MsgMin (pd.min rates)) ;;
        print (MsgMax (pd.max rates)) ;;
        print (MsgMean (pd.mean rates)) ;;
        last <- lift (pd.iloc_last rates) ;;
        print (MsgLast last) ;;
        first <- lift (pd.iloc_first rates) ;;
        let change := PrimFloat.sub last first in
        let change_percent :=
          PrimFloat.mul (PrimFloat.div change first) 100%float in
        print (MsgChange change change_percent)
  end.

(** ** [main] *)

(** [df.to_csv(csv_filename, index=False)]: the header, then one line per
    row, each ended by a line feed; dates that are all at midnight are
    written as year-month-day, floats by [repr], a missing value as the
    empty field.  (For a frame without columns only the line end of the
    header is left; the script does not get there.)  The event [ToCsv]
    records the call and the text handed to the file system. *)
Definition LF : ascii := ascii_of_nat 10.
Definition newline : string := String LF EmptyString.

Definition csv_rate `{Runtime} (r : float) : string :=
  if PrimFloat.is_nan r then "" else float_repr r.

Definition csv_line `{Runtime} (r : row) : string :=
  (strftime (date r) "%Y-%m-%d" ++ "," ++ csv_rate (rate r) ++ newline)%string.

Definition csv_text `{Runtime} (df : DataFrame) : string :=
  match df with
  | NoColumns => newline
  | Frame rs =>
      (("date,rate" ++ newline) ++ fold_right String.append "" (map csv_line rs))%string
  end.

Definition to_csv `{Runtime} (df : DataFrame) (csv_filename : string) : Py unit :=
  emit (ToCsv csv_filename (csv_text df)) ;;
  match write_error csv_filename with
  | Some e => raise e
  | None => ret tt
  end.

Definition CURRENCY_CODES : list (string * string) :=
  [("USD", "R01235"); ("EUR", "R01239"); ("GBP", "R01035"); ("CNY", "R01375")].

(** What [parser.parse_args()] hands over.  [--days] is declared with
    [type=int] and nothing else, so any integer gets through. *)
Record Namespace : Set := { currency : string; days : Z; output : string }.

Definition main `{Runtime} (args : Namespace) : Py unit :=
  currency_code <- lift (match assoc (currency args) CURRENCY_CODES with
                         | None => inl KeyError
                         | Some c => inr c
                         end) ;;
  let currency_name := (currency args ++ "/RUB")%string in
  print (MsgAnalyzing currency_name (days args)) ;;
  df <- get_currency_rate currency_code (days args) ;;
  match df with
  | Some frame =>
      if negb (pd.empty frame) then
        analyze_currency_data df ;;
        plot_currency_rate frame currency_name (Some (output args)) ;;
        let csv_filename := (lower (currency args) ++ "_rates.csv")%string in
        to_csv frame csv_filename ;;
        print (MsgDataSaved csv_filename)
      else print MsgNoData
  | None => print MsgNoData
  end.

(** ** The block under [if __name__ == "__main__"]

    It does not call [main]: run as a script, the file always does USD
    and then, inside the branch for a USD frame, EUR. *)

Definition dunder_main `{Runtime} : Py unit :=
  print MsgBanner ;;
  df_usd <- get_currency_rate "R01235" 30 ;;
  match df_usd with
  | Some usd =>
      analyze_currency_data df_usd ;;
      plot_currency_rate usd "USD/RUB" (Some "usd_rub_chart.png") ;;
      print MsgSeparator ;;
      df_eur <- get_currency_rate "R01239" 30 ;;
      match df_eur with
      | Some eur =>
          analyze_currency_data df_eur ;;
          plot_currency_rate eur "EUR/RUB" (Some "eur_rub_chart.png")
      | None => ret tt
      end
  | None => ret tt
  end.

(** ** A reference runtime

    Concrete stand-ins for the libraries, used to run the script on
    examples: the Gregorian calendar for [strftime]/[strptime] on the three
    formats the script and [to_csv] use, two insertion sorts that both meet
    [SortsByDate], and small tables for [float], [repr], the network and
    the XML reader. *)

Module Calendar.

(** Day number of a civil date (ordinal, day 1 = 0001-01-01). *)
Definition toordinal (y m d : Z) : Z :=
  let y' := if m <=? 2 then y - 1 else y in
  let era := y' / 400 in
  let yoe := y' - era * 400 in
  let doy := (153 * (if 2 <? m then m - 3 else m + 9) + 2) / 5 + d - 1 in
  let doe := yoe * 365 + yoe / 4 - yoe / 100 + doy in
  era * 146097 + doe - 305.

(** The civil date of a day number. *)
Definition fromordinal (o : Z) : Z * Z * Z :=
  let z := o + 305 in
  let era := z / 146097 in
  let doe := z - era * 146097 in
  let yoe := (doe - doe / 1460 + doe / 36524 - doe / 146096) / 365 in
  let doy := doe - (365 * yoe + yoe / 4 - yoe / 100) in
  let mp := (5 * doy + 2) / 153 in
  let d := doy - (153 * mp + 2) / 5 + 1 in
  let m := if mp <? 10 then mp + 3 else mp - 9 in
  let y := yoe + era * 400 in
  (if m <=? 2 then y + 1 else y, m, d).

Definition digit (n : Z) : ascii := ascii_of_nat (48 + Z.to_nat (n mod 10)).

Definition pad2 (n : Z) : string :=
  String (digit (n / 10)) (String (digit n) EmptyString).

Definition pad4 (n : Z) : string :=
  String (digit (n / 1000)) (String (digit (n / 100)) (pad2 n)).

Definition strftime (o : Z) (fmt : string) : string :=
  let '(y, m, d) := fromordinal o in
  if String.eqb fmt "%d/%m/%Y" then (pad2 d ++ "/" ++ pad2 m ++ "/" ++ pad4 y)%string
  else if String.eqb fmt "%d.%m.%Y" then (pad2 d ++ "." ++ pad2 m ++ "." ++ pad4 y)%string
  else if String.eqb fmt "%Y-%m-%d" then (pad4 y ++ "-" ++ pad2 m ++ "-" ++ pad2 d)%string
  else fmt.

Definition digit_value (c : ascii) : option Z :=
  let n := Z.of_nat (nat_of_ascii c) in
  if (48 <=? n) && (n <=? 57) then Some (n - 48) else None.

Fixpoint number (acc : Z) (s : string) : option Z :=
  match s with
  | EmptyString => Some acc
  | String c rest =>
      match digit_value c with
      | Some v => number (10 * acc + v) rest
      | None => None
      end
  end.

Definition civil (y m d : option Z) : exn + Z :=
  match y, m, d with
  | Some y, Some m, Some d =>
      let o := toordinal y m d in
      let '(y', m', d') := fromordinal o in
      if (y' =? y) && (m' =? m) && (d' =? d) && (1 <=? o) && (o <=? MAXORDINAL)
      then inr o else inl ValueError
  | _, _, _ => inl ValueError
  end.

(** Zero-padded dates only, which is what the provider sends. *)
Definition strptime (s fmt : string) : exn + Z :=
  if String.eqb fmt "%d.%m.%Y" then
    if (String.length s =? 10)%nat && String.eqb (substring 2 1 s) "."
       && String.eqb (substring 5 1 s) "."
    then civil (number 0 (substring 6 4 s)) (number 0 (substring 3 2 s))
               (number 0 (substring 0 2 s))
    else inl ValueError
  else if String.eqb fmt "%Y-%m-%d" then
    if (String.length s =? 10)%nat && String.eqb (substring 4 1 s) "-"
       && String.eqb (substring 7 1 s) "-"
    then civil (number 0 (substring 0 4 s)) (number 0 (substring 5 2 s))
               (number 0 (substring 8 2 s))
    else inl ValueError
  else inl ValueError.

End Calendar.

(** Insertion sort on the date.  With [ties_after = false] a row goes in
    front of the rows of the same date that are already placed, and the
    sort is stable; with [ties_after = true] it goes behind them, and rows
    of one date come out in reverse.  Both meet [SortsByDate] and stand in
    for the sort of pandas in the examples below, whose frames are short;
    what pandas runs is [quicksort_by_date]. *)
Fixpoint insert_row (ties_after : bool) (r : row) (l : list row) : list row :=
  match l with
  | [] => [r]
  | x :: xs =>
      if (if ties_after then date r <? date x else date r <=? date x)
      then r :: l
      else x :: insert_row ties_after r xs
  end.

Definition insertion_sort (ties_after : bool) (l : list row) : list row :=
  fold_right (insert_row ties_after) [] l.

Definition table {A : Type} (entries : list (string * A)) (e : exn) (s : string)
  : exn + A :=
  match assoc s entries with
  | Some a => inr a
  | None => inl e
  end.

#[local] Set Warnings "-inexact-float".

Module Fixture.

Definition element (name : string) (attrs : list (string * string))
  (txt : option string) (kids : list Element) : Element :=
  {| tag := name; attrib := attrs; text := txt; children := kids |}.

Definition record (day value : string) : Element :=
  element "Record" [("Date", day)] None [element "Value" [] (Some value) []].

Definition ValCurs (kids : list Element) : Element :=
  element "ValCurs" [] None kids.

(** Three records, not in date order. *)
Definition three_days_xml : string :=
  "<ValCurs><Record Date='03.01.2024'><Value>75,9</Value></Record><Record Date='01.01.2024'><Value>75,5</Value></Record><Record Date='02.01.2024'><Value>76,2</Value></Record></ValCurs>".

Definition three_days : Element :=
  ValCurs [record "03.01.2024" "75,9"; record "01.01.2024" "75,5";
           record "02.01.2024" "76,2"].

(** Two records of the same day. *)
Definition same_day_twice_xml : string :=
  "<ValCurs><Record Date='01.01.2024'><Value>1,0</Value></Record><Record Date='01.01.2024'><Value>2,0</Value></Record></ValCurs>".

Definition same_day_twice : Element :=
  ValCurs [record "01.01.2024" "1,0"; record "01.01.2024" "2,0"].

(** A record whose value is negative. *)
Definition negative_rate_xml : string :=
  "<ValCurs><Record Date='01.01.2024'><Value>75,5</Value></Record><Record Date='02.01.2024'><Value>-1,5</Value></Record></ValCurs>".

Definition negative_rate : Element :=
  ValCurs [record "01.01.2024" "75,5"; record "02.01.2024" "-1,5"].

(** A well-formed answer without any record. *)
Definition no_records_xml : string := "<ValCurs/>".

Definition no_records : Element := ValCurs [].

(** The second record has no [Value] child. *)
Definition value_missing_xml : string :=
  "<ValCurs><Record Date='01.01.2024'><Value>75,5</Value></Record><Record Date='02.01.2024'/><Record Date='03.01.2024'><Value>75,9</Value></Record></ValCurs>".

Definition value_missing : Element :=
  ValCurs [record "01.01.2024" "75,5";
           element "Record" [("Date", "02.01.2024")] None [];
           record "03.01.2024" "75,9"].

(** The second record has a date that is no date. *)
Definition bad_date_xml : string :=
  "<ValCurs><Record Date='01.01.2024'><Value>75,5</Value></Record><Record Date='31.02.2024'><Value>76,2</Value></Record></ValCurs>".

Definition bad_date : Element :=
  ValCurs [record "01.01.2024" "75,5"; record "31.02.2024" "76,2"].

(** Text that is not XML. *)
Definition not_xml : string := "Service unavailable".

(** What the fake XML reader knows. *)
Definition documents : list (string * Element) :=
  [(three_days_xml, three_days); (same_day_twice_xml, same_day_twice);
   (negative_rate_xml, negative_rate); (no_records_xml, no_records);
   (value_missing_xml, value_missing); (bad_date_xml, bad_date)].

(** What the fake provider sends, by currency code. *)
Definition bodies : list (string * string) :=
  [("R01235", three_days_xml); ("R01239", negative_rate_xml);
   ("R01035", no_records_xml); ("R01375", same_day_twice_xml);
   ("R00001", value_missing_xml); ("R00002", bad_date_xml);
   ("R00003", not_xml)].

(** The fake network: offline it refuses every request; online it answers
    the codes of [bodies] with 200 and any other code with an empty 404. *)
Definition network (online : bool) (u : string) (params : list (string * string))
  : exn + Response :=
  if online then
    match assoc "VAL_NM_RQ" params with
    | Some code =>
        match assoc code bodies with
        | Some body => inr {| status_code := 200; content := body |}
        | None => inr {| status_code := 404; content := "" |}
        end
    | None => inl ConnectionError
    end
  else inl ConnectionError.

Definition floats : list (string * float) :=
  [("75.5", 75.5%float); ("76.2", 76.2%float); ("75.9", 75.9%float);
   ("1.0", 1%float); ("2.0", 2%float); ("-1.5", (-1.5)%float)].

Fixpoint repr (entries : list (string * float)) (x : float) : string :=
  match entries with
  | [] => "inf"
  | (s, y) :: rest => if PrimFloat.eqb x y then s else repr rest x
  end.

Definition runtime (online ties_after : bool) : Runtime := {|
  now := 738917;
  strftime := Calendar.strftime;
  strptime := Calendar.strptime;
  py_float := table floats ValueError;
  float_repr := repr floats;
  requests_get := network online;
  fromstring := table documents ParseError;
  sort_by_date := insertion_sort ties_after;
  write_error := fun _ => None;
  layout_error := fun _ _ _ => None
|}.

Definition online : Runtime := runtime true false.
Definition offline : Runtime := runtime false false.

End Fixture.

(** ** The sort behind [sort_values]

    [df.sort_values('date')] asks numpy for the order of the date column
    with [argsort(kind='quicksort')].  For a [datetime64] column that is
    numpy's introsort on an array of positions: runs of up to 16 positions
    are sorted by insertion, longer ones are split around the median of
    three, and a heap sort takes over when the splitting goes too deep. *)

Module np.

Definition item (a : list nat) (p : nat) : nat := nth p a 0%nat.

(** [a[p] = x] *)
Fixpoint assign (a : list nat) (p x : nat) : list nat :=
  match a, p with
  | [], _ => []
  | _ :: rest, O => x :: rest
  | y :: rest, S p' => y :: assign rest p' x
  end.

Definition swap (a : list nat) (p q : nat) : list nat :=
  assign (assign a p (item a q)) q (item a p).

Section Keys.
Variable v : list Z.

(** [v[a[p]]], the key at a position *)
Definition key (a : list nat) (p : nat) : Z := nth (item a p) v 0.
Definition val (i : nat) : Z := nth i v 0.

(** [while (pj > pl && less(vp, v[*pk])) *pj-- = *pk--;  *pj = vi] *)
Fixpoint shift (a : list nat) (pl pj vi fuel : nat) : list nat :=
  match fuel with
  | O => assign a pj vi
  | S fuel' =>
      if (pl <? pj)%nat && (val vi <? key a (pj - 1))
      then shift (assign a pj (item a (pj - 1))) pl (pj - 1) vi fuel'
      else assign a pj vi
  end.

(** [for (pi = pl + 1; pi <= pr; ++pi)] *)
Fixpoint insertion (a : list nat) (pl pi count : nat) : list nat :=
  match count with
  | O => a
  | S count' => insertion (shift a pl pi (item a pi) pi) pl (S pi) count'
  end.

Definition insertion_sort (a : list nat) (pl pr : nat) : list nat :=
  insertion a pl (S pl) (pr - pl).

(** [do ++pi; while (less(v[*pi], vp))] *)
Fixpoint scan_up (a : list nat) (vp : Z) (pi fuel : nat) : nat :=
  match fuel with
  | O => pi
  | S fuel' =>
      if key a (S pi) <? vp then scan_up a vp (S pi) fuel' else S pi
  end.

(** [do --pj; while (less(vp, v[*pj]))] *)
Fixpoint scan_down (a : list nat) (vp : Z) (pj fuel : nat) : nat :=
  match fuel with
  | O => pj
  | S fuel' =>
      if vp <? key a (pj - 1) then scan_down a vp (pj - 1) fuel' else (pj - 1)%nat
  end.

Fixpoint partition_loop (a : list nat) (vp : Z) (pi pj fuel : nat)
  : list nat * nat :=
  match fuel with
  | O => (a, pi)
  | S fuel' =>
      let pi := scan_up a vp pi (List.length a) in
      let pj := scan_down a vp pj (List.length a) in
      if (pj <=? pi)%nat then (a, pi)
      else partition_loop (swap a pi pj) vp pi pj fuel'
  end.

(** One split of the run [pl..pr]: the positions and where the pivot went. *)
Definition partition (a : list nat) (pl pr : nat) : list nat * nat :=
  let pm := (pl + (pr - pl) / 2)%nat in
  let a := if key a pm <? key a pl then swap a pm pl else a in
  let a := if key a pr <? key a pm then swap a pr pm else a in
  let a := if key a pm <? key a pl then swap a pm pl else a in
  let vp := key a pm in
  let a := swap a pm (pr - 1) in
  let '(a, pi) := partition_loop a vp pl (pr - 1) (List.length a) in
  (swap a pi (pr - 1), pi).

(** The heap sort of the run of [n] positions that starts at [pl]; the
    heap is indexed from 1. *)
Definition heap_pos (pl j : nat) : nat := (pl + j - 1)%nat.

Fixpoint sift (a : list nat) (pl n tmp i j fuel : nat) : list nat :=
  match fuel with
  | O => assign a (heap_pos pl i) tmp
  | S fuel' =>
      if (j <=? n)%nat then
        let j := if (j <? n)%nat
                    && (key a (heap_pos pl j) <? key a (heap_pos pl (S j)))
                 then S j else j in
        if val tmp <? key a (heap_pos pl j)
        then sift (assign a (heap_pos pl i) (item a (heap_pos pl j)))
                  pl n tmp j (j + j) fuel'
        else assign a (heap_pos pl i) tmp
      else assign a (heap_pos pl i) tmp
  end.

(** [for (l = n >> 1; l > 0; --l)] *)
Fixpoint heapify (a : list nat) (pl n l : nat) : list nat :=
  match l with
  | O => a
  | S l' => heapify (sift a pl n (item a (heap_pos pl l)) l (l + l) n) pl n l'
  end.

(** [for (; n > 1;)] *)
Fixpoint unheap (a : list nat) (pl n : nat) : list nat :=
  match n with
  | O => a
  | S n' =>
      match n' with
      | O => a
      | _ =>
          let tmp := item a (heap_pos pl n) in
          let a := assign a (heap_pos pl n) (item a (heap_pos pl 1)) in
          unheap (sift a pl n' tmp 1 2 n') pl n'
      end
  end.

Definition heapsort (a : list nat) (pl pr : nat) : list nat :=
  let n := (pr - pl + 1)%nat in
  unheap (heapify a pl n (n / 2)) pl n.

(** The run [pl..pr] from the moment the loop turns to it: split while it
    is longer than 16, sort the rest by insertion.  Of the two sides of a
    split the shorter is gone on with and the longer is set aside; a run
    that was set aside is heap sorted if the depth left for it is below 0. *)
Fixpoint quick (a : list nat) (pl pr : nat) (cdepth : Z) (fuel : nat)
  : list nat :=
  match fuel with
  | O => a
  | S fuel' =>
      if (15 <? pr - pl)%nat then
        let '(a, pi) := partition a pl pr in
        let cdepth := cdepth - 1 in
        let set_aside a pl pr :=
          if cdepth <? 0 then heapsort a pl pr else quick a pl pr cdepth fuel' in
        if (pi - pl <? pr - pi)%nat
        then set_aside (quick a pl (pi - 1) cdepth fuel') (S pi) pr
        else set_aside (quick a (S pi) pr cdepth fuel') pl (pi - 1)%nat
      else insertion_sort a pl pr
  end.

End Keys.

(** [v.argsort(kind='quicksort')] *)
Definition argsort (v : list Z) : list nat :=
  let n := List.length v in
  quick v (seq 0 n) 0 (n - 1) (2 * Z.log2 (Z.of_nat n)) (S n).

End np.

(** [df.sort_values('date')] with the default [kind]: the rows taken in the
    order [argsort] gives for their dates. *)
Definition quicksort_by_date (rows : list row) : list row :=
  flat_map (fun i => match nth_error rows i with
                     | Some r => [r]
                     | None => []
                     end)
           (np.argsort (map date rows)).

(** An answer with 17 records of one day, valued 1 to 17, read by a runtime
    that sorts as numpy does. *)
Module SeventeenTies.

Definition float_of_nat (i : nat) : float :=
  PrimFloat.of_uint63 (Uint63.of_Z (Z.of_nat i)).

Definition value_text (i : nat) : string :=
  (Calendar.pad2 (Z.of_nat i) ++ ",0")%string.

Definition record_xml (i : nat) : string :=
  ("<Record Date='01.01.2024'><Value>" ++ value_text i ++ "</Value></Record>")%string.

Definition xml : string :=
  ("<ValCurs>" ++ fold_right String.append "" (map record_xml (seq 1 17))
   ++ "</ValCurs>")%string.

Definition document : Element :=
  Fixture.ValCurs (map (fun i => Fixture.record "01.01.2024" (value_text i))
                       (seq 1 17)).

Definition floats : list (string * float) :=
  map (fun i => ((Calendar.pad2 (Z.of_nat i) ++ ".0")%string, float_of_nat i))
      (seq 1 17).

Definition runtime : Runtime := {|
  now := 738917;
  strftime := Calendar.strftime;
  strptime := Calendar.strptime;
  py_float := table floats ValueError;
  float_repr := Fixture.repr floats;
  requests_get := fun _ _ => inr {| status_code := 200; content := xml |};
  fromstring := table [(xml, document)] ParseError;
  sort_by_date := quicksort_by_date;
  write_error := fun _ => None;
  layout_error := fun _ _ _ => None
|}.

(** The rows of the one day with these rates, in this order. *)
Definition rated (rates : list float) : list row :=
  map (fun x => {| date := 738886; rate := x |}) rates.

End SeventeenTies.

(** ** Reading the exported file back *)

(** [s.split(sep)] for a one-character separator *)
Fixpoint split (sep : ascii) (s : string) : list string :=
  match s with
  | EmptyString => [EmptyString]
  | String c rest =>
      if Ascii.eqb c sep then EmptyString :: split sep rest
      else match split sep rest with
           | [] => [String c EmptyString]
           | field :: fields => String c field :: fields
           end
  end.

(** The lines of a text: what [split] gives, without the empty piece
    behind a final line end. *)
Fixpoint lines_of (pieces : list string) : list string :=
  match pieces with
  | [] => []
  | piece :: rest =>
      match rest with
      | [] => if String.eqb piece "" then [] else [piece]
      | _ => piece :: lines_of rest
      end
  end.

(** Modelled from the spec: the re-read of the exported file.  The script
    only writes the file ([to_csv]); no code of the repository reads one
    back.  This is the reader the round-trip property of the spec speaks
    of: a header row [date,rate], then one row per record, the date read
    in the format it was written in and the rate read by [float]. *)
Definition read_row `{Runtime} (line : string) : exn + row :=
  match split "," line with
  | [d; x] =>
      d <-? strptime d "%Y-%m-%d" ;;
      x <-? py_float x ;;
      inr {| date := d; rate := x |}
  | _ => inl ValueError
  end.

Fixpoint read_rows `{Runtime} (lines : list string) : exn + list row :=
  match lines with
  | [] => inr []
  | line :: rest =>
      r <-? read_row line ;;
      rs <-? read_rows rest ;;
      inr (r :: rs)
  end.

Definition read_csv `{Runtime} (file : string) : exn + list row :=
  match lines_of (split LF file) with
  | header :: lines =>
      if String.eqb header "date,rate" then read_rows lines else inl ValueError
  | [] => inl ValueError
  end.

(** A field that can stand in a row as it is: no comma, no line end. *)
Fixpoint contains (c : ascii) (s : string) : bool :=
  match s with
  | EmptyString => false
  | String c' rest => Ascii.eqb c' c || contains c rest
  end.

Definition plain_field (s : string) : Prop :=
  contains "," s = false /\ contains LF s = false.

(** A written row without its line end. *)
Definition written `{Runtime} (r : row) : string :=
  (strftime (date r) "%Y-%m-%d" ++ "," ++ csv_rate (rate r))%string.

(** A row whose two fields the reader gets back from their written form. *)
Definition Rereadable `{Runtime} (r : row) : Prop :=
  plain_field (strftime (date r) "%Y-%m-%d") /\
  plain_field (csv_rate (rate r)) /\
  strptime (strftime (date r) "%Y-%m-%d") "%Y-%m-%d" = inr (date r) /\
  py_float (csv_rate (rate r)) = inr (rate r).



(** A runtime whose texts for dates and floats are read back whatever the
    value: a day is written as its number and a float as its sign,
    mantissa and exponent, all in binary digits. *)
Module Codec.

Fixpoint bits (p : positive) : string :=
  match p with
  | xH => "1"
  | xO q => String "0" (bits q)
  | xI q => String "1" (bits q)
  end.

Fixpoint unbits (s : string) : option positive :=
  match s with
  | EmptyString => None
  | String c rest =>
      match rest with
      | EmptyString => if Ascii.eqb c "1" then Some xH else None
      | _ =>
          match unbits rest with
          | Some q =>
              if Ascii.eqb c "0" then Some (xO q)
              else if Ascii.eqb c "1" then Some (xI q) else None
          | None => None
          end
      end
  end.

Definition of_Z (z : Z) : string :=
  match z with
  | Z0 => "z"
  | Zpos p => String "p" (bits p)
  | Zneg p => String "m" (bits p)
  end.

Definition to_Z (s : string) : option Z :=
  match s with
  | String c rest =>
      if Ascii.eqb c "z" then
        match rest with EmptyString => Some Z0 | _ => None end
      else if Ascii.eqb c "p" then option_map Zpos (unbits rest)
      else if Ascii.eqb c "m" then option_map Zneg (unbits rest)
      else None
  | EmptyString => None
  end.

Definition sign (s : bool) : ascii := if s then "-"%char else "+"%char.

Definition unsign (c : ascii) : option bool :=
  if Ascii.eqb c "-" then Some true
  else if Ascii.eqb c "+" then Some false else None.

Definition of_spec (x : SpecFloat.spec_float) : string :=
  match x with
  | SpecFloat.S754_zero s => String (sign s) "0"
  | SpecFloat.S754_infinity s => String (sign s) "i"
  | SpecFloat.S754_nan => "nan"
  | SpecFloat.S754_finite s m e =>
      String (sign s) (String "f" (bits m ++ String "e" (of_Z e)))
  end.

Definition to_spec (t : string) : option SpecFloat.spec_float :=
  match t with
  | String c (String k rest) =>
      match unsign c with
      | Some s =>
          if Ascii.eqb k "0" then
            match rest with
            | EmptyString => Some (SpecFloat.S754_zero s)
            | _ => None
            end
          else if Ascii.eqb k "i" then
            match rest with
            | EmptyString => Some (SpecFloat.S754_infinity s)
            | _ => None
            end
          else if Ascii.eqb k "f" then
            match split "e" rest with
            | [m; e] =>
                match unbits m, to_Z e with
                | Some m, Some e => Some (SpecFloat.S754_finite s m e)
                | _, _ => None
                end
            | _ => None
            end
          else None
      | None =>
          if String.eqb t "nan" then Some SpecFloat.S754_nan else None
      end
  | _ => None
  end.

Definition write_float (x : float) : string := of_spec (Prim2SF x).

Definition read_float (t : string) : exn + float :=
  match to_spec t with
  | Some x => inr (SF2Prim x)
  | None => inl ValueError
  end.

Definition read_day (t fmt : string) : exn + datetime :=
  match to_Z t with
  | Some d => inr d
  | None => inl ValueError
  end.

Definition runtime : Runtime := {|
  now := 738917;
  strftime := fun d _ => of_Z d;
  strptime := read_day;
  py_float := read_float;
  float_repr := write_float;
  requests_get := fun _ _ => inl ConnectionError;
  fromstring := fun _ => inl ParseError;
  sort_by_date := insertion_sort false;
  write_error := fun _ => None;
  layout_error := fun _ _ _ => None
|}.

End Codec.

(** The reference runtime for an answer whose one record has the value
    [nan], which [float] reads as NaN. *)
Module NanRate.

Definition xml : string :=
  "<ValCurs><Record Date='01.01.2024'><Value>nan</Value></Record></ValCurs>".

Definition document : Element :=
  Fixture.ValCurs [Fixture.record "01.01.2024" "nan"].

Definition runtime : Runtime := {|
  now := 738917;
  strftime := Calendar.strftime;
  strptime := Calendar.strptime;
  py_float := table (("nan", PrimFloat.nan) :: Fixture.floats) ValueError;
  float_repr := Fixture.repr Fixture.floats;
  requests_get := fun _ _ => inr {| status_code := 200; content := xml |};
  fromstring := table [(xml, document)] ParseError;
  sort_by_date := insertion_sort false;
  write_error := fun _ => None;
  layout_error := fun _ _ _ => None
|}.

End NanRate.

(** ** Vocabulary of the statements *)

(** The query string [get_currency_rate] builds. *)
Definition query `{Runtime} (start_date : datetime) (currency_code : string)
  : list (string * string) :=
  [("date_req1", strftime start_date "%d/%m/%Y");
   ("date_req2", strftime now "%d/%m/%Y");
   ("VAL_NM_RQ", currency_code)].

(** The date window exists, the request went through and the answer is
    no 4xx/5xx: the fetch phase handed [response] to the parsing phase. *)
Definition Fetched `{Runtime} (currency_code : string) (days : Z)
  (response : Response) : Prop :=
  exists start_date,
    timedelta days = inr days /\
    datetime_sub now days = inr start_date /\
    requests_get url (query start_date currency_code) = inr response /\
    outcome (requests.raise_for_status response) = inr tt.

(** The first day of the window; the arithmetic is done before the [try]. *)
Definition window `{Runtime} (days : Z) : exn + datetime :=
  delta <-? timedelta days ;;
  datetime_sub now delta.

(** A record the loop can read: a [Date] attribute that is a date, a
    [Value] child whose text is a number once its commas are periods. *)
Definition WellFormed `{Runtime} (record : Element) (r : row) : Prop :=
  exists s value t,
    get record "Date" = Some s /\
    strptime s "%d.%m.%Y" = inr (date r) /\
    find record "Value" = Some value /\
    text value = Some t /\
    py_float (replace "," "." t) = inr (rate r).

(** A record the loop cannot read. *)
Inductive Malformed `{Runtime} (record : Element) : Prop :=
| value_field_missing :
    find record "Value" = None -> Malformed record
| value_field_empty value :
    find record "Value" = Some value -> text value = None -> Malformed record
| date_missing :
    get record "Date" = None -> Malformed record
| date_unparseable s e :
    get record "Date" = Some s -> strptime s "%d.%m.%Y" = inl e ->
    Malformed record
| number_unparseable value t e :
    find record "Value" = Some value -> text value = Some t ->
    py_float (replace "," "." t) = inl e -> Malformed record.

(** [None] for a failed parse, as the handler returns it. *)
Definition or_None {A : Type} (r : exn + A) : option A :=
  match r with
  | inl _ => None
  | inr a => Some a
  end.

(** No call of [savefig] in a trace. *)
Definition no_savefig (t : list event) : Prop :=
  forall path, ~ In (Plt (plt.savefig path)) t.

(** ** Vocabulary of the statements about effects *)

Definition is_request (ev : event) : bool :=
  match ev with
  | HttpGet _ _ => true
  | _ => false
  end.

(** How many requests a trace holds. *)
Definition requests_sent (t : list event) : nat :=
  List.length (filter is_request t).

(** An event on the console or on the network: no figure, no file. *)
Definition console_or_network (ev : event) : Prop :=
  match ev with
  | Print _ | HttpGet _ _ => True
  | _ => False
  end.

Definition is_print (ev : event) : Prop :=
  match ev with
  | Print _ => True
  | _ => False
  end.

(** Anything but the export of the table. *)
Definition not_export (ev : event) : Prop :=
  match ev with
  | ToCsv _ _ => False
  | _ => True
  end.

(** The reference runtime on a disk that refuses every write. *)
Definition read_only_disk : Runtime := {|
  now := 738917;
  strftime := Calendar.strftime;
  strptime := Calendar.strptime;
  py_float := table Fixture.floats ValueError;
  float_repr := Fixture.repr Fixture.floats;
  requests_get := Fixture.network true;
  fromstring := table Fixture.documents ParseError;
  sort_by_date := insertion_sort false;
  write_error := fun _ => Some OSError;
  layout_error := fun _ _ _ => None
|}.

(** * Properties *)

(** ** The record loop *)

Section RecordLoop.
Context `{Runtime}.

Lemma read_record_well_formed record r :
  WellFormed record r <-> read_record record = inr r.
Proof.
  unfold WellFormed, read_record, and_then, getattr. split.
  - intros (s & value & t & Hd & Hs & Hv & Ht & Hf).
    rewrite Hv, Ht, Hd, Hs, Hf. now destruct r.
  - destruct (find record "Value") as [value|] eqn:Hv; [|discriminate].
    destruct (text value) as [t|] eqn:Ht; [|discriminate].
    destruct (get record "Date") as [s|] eqn:Hd; [|discriminate].
    destruct (strptime s "%d.%m.%Y") as [|d] eqn:Hs; [discriminate|].
    destruct (py_float (replace "," "." t)) as [|x] eqn:Hf; [discriminate|].
    intros [= <-]. exists s, value, t. simpl. repeat split; assumption || reflexivity.
Qed.

Lemma read_record_malformed record :
  Malformed record -> exists e, read_record record = inl e.
Proof.
  unfold read_record, and_then, getattr.
  intros [Hv | value Hv Ht | Hd | s e Hd Hs | value t e Hv Ht Hf].
  - rewrite Hv. eauto.
  - rewrite Hv, Ht. eauto.
  - rewrite Hd. destruct (find record "Value") as [value|]; eauto.
    destruct (text value); eauto.
  - rewrite Hd, Hs. destruct (find record "Value") as [value|]; eauto.
    destruct (text value); eauto.
  - rewrite Hv, Ht, Hf. destruct (get record "Date") as [s|]; eauto.
    destruct (strptime s "%d.%m.%Y"); eauto.
Qed.

Lemma for_records_all records : forall rs data,
  Forall2 (fun record r => read_record record = inr r) records rs ->
  for_records records data = inr (data ++ rs).
Proof.
  induction records as [|record rest IH]; intros rs data Hall; inversion Hall; subst.
  - simpl. now rewrite app_nil_r.
  - simpl. rewrite H2. simpl. rewrite (IH _ _ H4), <- app_assoc. reflexivity.
Qed.

Lemma for_records_inv records : forall data out,
  for_records records data = inr out ->
  exists rs, out = data ++ rs /\
             Forall2 (fun record r => read_record record = inr r) records rs.
Proof.
  induction records as [|record rest IH]; simpl; intros data out Hout.
  - injection Hout as <-. exists []. now rewrite app_nil_r.
  - destruct (read_record record) as [e|r] eqn:Hr; [discriminate|]. simpl in Hout.
    destruct (IH _ _ Hout) as (rs & -> & Hrs).
    exists (r :: rs). rewrite <- app_assoc. auto.
Qed.

Lemma for_records_one_bad records : forall data,
  Exists (fun record => exists e, read_record record = inl e) records ->
  exists e, for_records records data = inl e.
Proof.
  induction records as [|record rest IH]; intros data Hbad; inversion Hbad; subst.
  - destruct H1 as [e He]. exists e. simpl. now rewrite He.
  - simpl. destruct (read_record record) as [e|r]; simpl; eauto.
Qed.

(** What [get_currency_rate] returns once the answer is there. *)
Lemma get_currency_rate_fetched currency_code days response :
  Fetched currency_code days response ->
  outcome (get_currency_rate currency_code days) =
  inr (or_None (parse (content response))).
Proof.
  intros (start_date & Hdelta & Hstart & Hget & Hstatus).
  unfold get_currency_rate, parse. rewrite Hdelta. simpl. rewrite Hstart. simpl.
  unfold requests.get. fold (query start_date currency_code). rewrite Hget.
  unfold outcome in Hstatus.
  destruct (requests.raise_for_status response) as [t [e|[]]]; simpl in Hstatus;
    [discriminate|]. simpl.
  destruct (fromstring (content response)) as [e|root]; [reflexivity|]. simpl.
  destruct (for_records (findall root "Record") []) as [e|data]; [reflexivity|].
  simpl. destruct (sort_values (pd.DataFrame data)); reflexivity.
Qed.

End RecordLoop.

(** ** The two insertion sorts meet the contract of [sort_values] *)

Lemma insert_row_perm ties_after r l :
  Permutation (insert_row ties_after r l) (r :: l).
Proof.
  induction l as [|x xs IH]; simpl; [reflexivity|].
  destruct (if ties_after then date r <? date x else date r <=? date x).
  - reflexivity.
  - rewrite IH. apply perm_swap.
Qed.

Lemma insert_row_sorted ties_after r l :
  StronglySorted date_le l -> StronglySorted date_le (insert_row ties_after r l).
Proof.
  induction 1 as [|x xs Hxs IH Hx]; simpl.
  - repeat constructor.
  - destruct (if ties_after then date r <? date x else date r <=? date x) eqn:Hcmp.
    + assert (Hle : date r <= date x) by (destruct ties_after; lia).
      constructor; [now constructor|].
      constructor; [exact Hle|].
      eapply Forall_impl; [|exact Hx]. unfold date_le. intros; lia.
    + assert (Hle : date x <= date r) by (destruct ties_after; lia).
      constructor; [exact IH|].
      eapply Permutation_Forall; [symmetry; apply insert_row_perm|].
      now constructor.
Qed.

Lemma insertion_sort_SortsByDate ties_after :
  SortsByDate (insertion_sort ties_after).
Proof.
  split; intros l; induction l as [|r l IH]; simpl.
  - reflexivity.
  - rewrite insert_row_perm. now constructor.
  - constructor.
  - now apply insert_row_sorted.
Qed.

(** The first of them is stable. *)
Lemma insert_row_same_day d r l :
  same_day d (insert_row false r l) = same_day d (r :: l).
Proof.
  induction l as [|x xs IH]; [reflexivity|].
  simpl insert_row. destruct (date r <=? date x) eqn:Hle; [reflexivity|].
  unfold same_day in *. cbn [filter] in *. rewrite IH.
  destruct (date r =? d) eqn:Hr, (date x =? d) eqn:Hx; try reflexivity.
  lia.
Qed.

Lemma insertion_sort_KeepsTies : KeepsTies (insertion_sort false).
Proof.
  intros l d. induction l as [|r l IH]; [reflexivity|].
  simpl insertion_sort. rewrite insert_row_same_day.
  unfold same_day in *. cbn [filter]. now rewrite IH.
Qed.

(** ** The parsing phase of [get_currency_rate] *)

Lemma Forall2_In_right {A B : Type} (P : A -> B -> Prop) l l' y :
  Forall2 P l l' -> In y l' -> exists x, In x l /\ P x y.
Proof.
  induction 1 as [|a b l l' Hab _ IH]; simpl; [easy|].
  intros [<- | Hin].
  - exists a. auto.
  - destruct (IH Hin) as (x & Hx & Hxy). exists x. auto.
Qed.

Section ParsePhase.
Context `{Runtime}.

Lemma parse_well_formed body root rs :
  fromstring body = inr root ->
  Forall2 WellFormed (findall root "Record") rs ->
  rs <> [] ->
  parse body = inr (Frame (sort_by_date rs)).
Proof.
  intros Hroot Hall Hne. unfold parse. rewrite Hroot. simpl.
  rewrite (for_records_all _ rs []).
  - simpl. destruct rs; [contradiction|reflexivity].
  - eapply Forall2_impl; [|exact Hall]. intros a b. apply read_record_well_formed.
Qed.

Lemma parse_inv body df :
  parse body = inr df ->
  exists root rs,
    fromstring body = inr root /\
    Forall2 WellFormed (findall root "Record") rs /\
    rs <> [] /\ df = Frame (sort_by_date rs).
Proof.
  unfold parse. destruct (fromstring body) as [e|root]; [discriminate|]. simpl.
  destruct (for_records (findall root "Record") []) as [e|data] eqn:Hdata;
    [discriminate|]. simpl.
  destruct (for_records_inv _ _ _ Hdata) as (rs & -> & Hrs). simpl.
  destruct rs as [|r rs]; simpl; [discriminate|].
  intros [= <-]. exists root, (r :: rs). repeat split; try easy.
  eapply Forall2_impl; [|exact Hrs]. intros a b. apply read_record_well_formed.
Qed.

(** C1 (as amended).  For an answer whose N >= 1 [Record] elements are all
    well-formed, [get_currency_rate] returns a frame of exactly N rows,
    which are the records of the payload rearranged in ascending order of
    the date.  Rows of one date keep the order of the payload provided the
    algorithm behind [sort_values] keeps ties; the call uses the default
    [kind], for which pandas promises the first two facts only. *)
Theorem parse_sorted_permutation currency_code days response root rs N :
  SortsByDate sort_by_date ->
  Fetched currency_code days response ->
  fromstring (content response) = inr root ->
  Forall2 WellFormed (findall root "Record") rs ->
  List.length (findall root "Record") = N ->
  (1 <= N)%nat ->
  exists out,
    outcome (get_currency_rate currency_code days) = inr (Some (Frame out)) /\
    List.length out = N /\
    StronglySorted date_le out /\
    Permutation out rs /\
    (KeepsTies sort_by_date -> forall d, same_day d out = same_day d rs).
Proof.
  intros [Hperm Hsorted] Hfetched Hroot Hall HN Hpos.
  assert (Hlen : List.length rs = N) by (rewrite <- HN; symmetry; eapply Forall2_length; eauto).
  exists (sort_by_date rs). repeat split.
  - rewrite (get_currency_rate_fetched _ _ _ Hfetched).
    rewrite (parse_well_formed _ root rs); auto.
    intros ->. simpl in Hlen. lia.
  - rewrite (Permutation_length (Hperm rs)). exact Hlen.
  - apply Hsorted.
  - apply Hperm.
  - intros Hties d. apply Hties.
Qed.

(** C2.  A payload that is not XML, or that holds no [Record] element
    where one is expected, or one of whose records lacks its [Value] field
    (or the text in it, or the [Date] attribute) or carries a date or a
    number that cannot be read, makes [get_currency_rate] return [None]:
    the records that could be read are not returned. *)
Theorem malformed_payload_gives_None currency_code days response :
  Fetched currency_code days response ->
  (exists e, fromstring (content response) = inl e) \/
  (exists root, fromstring (content response) = inr root /\
                (findall root "Record" = [] \/
                 Exists Malformed (findall root "Record"))) ->
  outcome (get_currency_rate currency_code days) = inr None.
Proof.
  intros Hfetched Hbad. rewrite (get_currency_rate_fetched _ _ _ Hfetched).
  unfold parse.
  destruct Hbad as [[e ->] | (root & -> & [Hnone | Hbad])]; simpl;
    [reflexivity | now rewrite Hnone |].
  destruct (for_records_one_bad (findall root "Record") []) as [e ->]; [|reflexivity].
  eapply Exists_impl; [|exact Hbad]. intros a. apply read_record_malformed.
Qed.

(** C9 (as amended).  Every rate of a returned frame is what [float] makes
    of the [Value] text of one record of the payload, commas turned into
    periods.  Nothing looks at its sign. *)
Theorem returned_rates_are_floats_of_values currency_code days response df r :
  SortsByDate sort_by_date ->
  Fetched currency_code days response ->
  outcome (get_currency_rate currency_code days) = inr (Some df) ->
  In r (pd.rows df) ->
  exists root record value t,
    fromstring (content response) = inr root /\
    In record (findall root "Record") /\
    find record "Value" = Some value /\
    text value = Some t /\
    py_float (replace "," "." t) = inr (rate r).
Proof.
  intros [Hperm _] Hfetched Hout Hin.
  rewrite (get_currency_rate_fetched _ _ _ Hfetched) in Hout.
  destruct (parse (content response)) as [e|df'] eqn:Hparse; [discriminate|].
  injection Hout as ->.
  destruct (parse_inv _ _ Hparse) as (root & rs & Hroot & Hall & _ & ->).
  simpl in Hin. apply (Permutation_in _ (Hperm rs)) in Hin.
  destruct (Forall2_In_right _ _ _ _ Hall Hin) as (record & Hrec & s & value & t & _ & _ & Hv & Ht & Hf).
  exists root, record, value, t. auto.
Qed.

(** C10.  A well-formed answer without any [Record] element makes
    [get_currency_rate] return [None]: the frame of the empty list has no
    [date] column, [sort_values] raises [KeyError], and the handler prints
    it and returns [None]. *)
Theorem no_records_gives_None currency_code days response root :
  Fetched currency_code days response ->
  fromstring (content response) = inr root ->
  findall root "Record" = [] ->
  outcome (get_currency_rate currency_code days) = inr None /\
  In (Print (MsgFetchError KeyError)) (events (get_currency_rate currency_code days)).
Proof.
  intros Hfetched Hroot Hnone. split.
  - rewrite (get_currency_rate_fetched _ _ _ Hfetched). unfold parse.
    rewrite Hroot. simpl. rewrite Hnone. reflexivity.
  - destruct Hfetched as (start_date & Hdelta & Hstart & Hget & Hstatus).
    unfold get_currency_rate. rewrite Hdelta. simpl. rewrite Hstart. simpl.
    unfold requests.get. fold (query start_date currency_code). rewrite Hget.
    unfold outcome in Hstatus.
    destruct (requests.raise_for_status response) as [t [e|[]]] eqn:Hr;
      simpl in Hstatus; [discriminate|].
    simpl. rewrite Hroot. simpl. rewrite Hnone. simpl.
    unfold events. simpl. right. right. apply in_or_app. right. now left.
Qed.

End ParsePhase.

(** ** The parsing phase on the reference runtime *)

Section ParseExamples.
Import Fixture.


Lemma fixture_fetched (ties_after : bool) code body :
  assoc code bodies = Some body ->
  @Fetched (runtime true ties_after) code 30 {| status_code := 200; content := body |}.
Proof.
  intros Hbody. exists 738887. repeat split; try reflexivity.
  cbn -[bodies]. unfold network. cbn -[bodies]. now rewrite Hbody.
Qed.

Example three_days_parsed :
  @get_currency_rate online "R01235" 30 =
  ([Print (MsgRequesting "02/01/2024" "01/02/2024");
    HttpGet url [("date_req1", "02/01/2024"); ("date_req2", "01/02/2024");
                 ("VAL_NM_RQ", "R01235")];
    Print (MsgReceived 3)],
   inr (Some (Frame [{| date := 738886; rate := 75.5 |};
                     {| date := 738887; rate := 76.2 |};
                     {| date := 738888; rate := 75.9 |}]))).
Proof. reflexivity. Qed.

Example bad_date_gives_None :
  @get_currency_rate online "R00002" 30 =
  ([Print (MsgRequesting "02/01/2024" "01/02/2024");
    HttpGet url [("date_req1", "02/01/2024"); ("date_req2", "01/02/2024");
                 ("VAL_NM_RQ", "R00002")];
    Print (MsgFetchError ValueError)],
   inr None).
Proof. reflexivity. Qed.

Example not_xml_gives_None :
  outcome (@get_currency_rate online "R00003" 30) = inr None.
Proof. reflexivity. Qed.

Lemma parse_sorted_permutation_witness :
  exists out,
    outcome (@get_currency_rate online "R01235" 30) = inr (Some (Frame out)) /\
    List.length out = 3%nat /\
    StronglySorted date_le out /\
    Permutation out [{| date := 738888; rate := 75.9 |};
                     {| date := 738886; rate := 75.5 |};
                     {| date := 738887; rate := 76.2 |}] /\
    (forall d, same_day d out =
               same_day d [{| date := 738888; rate := 75.9 |};
                           {| date := 738886; rate := 75.5 |};
                           {| date := 738887; rate := 76.2 |}]).
Proof.
  destruct (@parse_sorted_permutation online "R01235" 30
              {| status_code := 200; content := three_days_xml |} three_days
              [{| date := 738888; rate := 75.9 |};
               {| date := 738886; rate := 75.5 |};
               {| date := 738887; rate := 76.2 |}] 3)
    as (out & Hout & Hlen & Hsorted & Hperm & Hties).
  7: { exists out. repeat split; try assumption.
       apply Hties, insertion_sort_KeepsTies. }
  - apply insertion_sort_SortsByDate.
  - now apply fixture_fetched.
  - reflexivity.
  - repeat constructor; apply read_record_well_formed; reflexivity.
  - reflexivity.
  - lia.
Defined.

(** C1 as stated fails twice.  With N = 0 records nothing of length 0 comes
    back but [None].  And the sort is not stable: of 17 records of one day,
    valued 1 to 17 in the payload, numpy's quicksort brings back the first
    and the last in their places and the others in another order. *)
Lemma parse_sorted_stable_counterexample :
  (fromstring (Runtime := online) no_records_xml = inr no_records /\
   findall no_records "Record" = [] /\
   outcome (@get_currency_rate online "R01035" 30) = inr None) /\
  (Forall2 (@WellFormed SeventeenTies.runtime)
     (findall SeventeenTies.document "Record")
     (SeventeenTies.rated [1; 2; 3; 4; 5; 6; 7; 8; 9; 10; 11; 12; 13; 14; 15; 16; 17]
      %float) /\
   outcome (@get_currency_rate SeventeenTies.runtime "R01235" 30) =
   inr (Some (Frame (SeventeenTies.rated
     [1; 15; 14; 13; 12; 11; 10; 16; 9; 7; 6; 5; 4; 3; 2; 8; 17]%float)))).
Proof.
  repeat split; try reflexivity.
  repeat constructor; apply read_record_well_formed; reflexivity.
Qed.

Lemma malformed_payload_gives_None_witness :
  outcome (@get_currency_rate online "R00001" 30) = inr None.
Proof.
  apply (@malformed_payload_gives_None online "R00001" 30
           {| status_code := 200; content := value_missing_xml |}).
  - now apply fixture_fetched.
  - right. exists value_missing. split; [reflexivity|]. right.
    apply Exists_cons_tl, Exists_cons_hd. now apply value_field_missing.
Defined.

(** C9 as stated fails: the provider's text [-1,5] comes back as the rate
    [-1.5], which is not above zero. *)
Lemma positive_rate_counterexample :
  outcome (@get_currency_rate online "R01239" 30) =
  inr (Some (Frame [{| date := 738886; rate := 75.5 |};
                    {| date := 738887; rate := -1.5 |}])) /\
  PrimFloat.ltb 0 (-1.5) = false.
Proof. split; reflexivity. Qed.

Lemma returned_rates_are_floats_of_values_witness :
  exists root record value t,
    fromstring (Runtime := online) negative_rate_xml = inr root /\
    In record (findall root "Record") /\
    find record "Value" = Some value /\
    text value = Some t /\
    py_float (Runtime := online) (replace "," "." t) = inr (-1.5)%float.
Proof.
  apply (@returned_rates_are_floats_of_values online "R01239" 30
           {| status_code := 200; content := negative_rate_xml |}
           (Frame [{| date := 738886; rate := 75.5 |};
                   {| date := 738887; rate := -1.5 |}])
           {| date := 738887; rate := -1.5 |}).
  - apply insertion_sort_SortsByDate.
  - now apply fixture_fetched.
  - reflexivity.
  - simpl. auto.
Defined.

Lemma no_records_gives_None_witness :
  outcome (@get_currency_rate online "R01035" 30) = inr None /\
  In (Print (MsgFetchError KeyError)) (events (@get_currency_rate online "R01035" 30)).
Proof.
  apply (@no_records_gives_None online "R01035" 30
           {| status_code := 200; content := no_records_xml |} no_records).
  - now apply fixture_fetched.
  - reflexivity.
  - reflexivity.
Defined.

End ParseExamples.

(** ** [analyze_currency_data] and [plot_currency_rate] *)

Lemma iloc_last_cons {A : Type} (x : A) (l : list A) :
  exists y, pd.iloc_last (x :: l) = inr y.
Proof.
  unfold pd.iloc_last. simpl. destruct (rev l) as [|y ys]; simpl; eauto.
Qed.

Lemma empty_frame df : pd.empty df = true <-> df = NoColumns \/ df = Frame [].
Proof.
  destruct df as [|[|r rs]]; simpl; split; auto; try discriminate.
  intros [H|H]; discriminate.
Qed.

Section Reports.
Context `{Runtime}.

(** C3.  On the rates 100, 110, 90 (whatever the three dates)
    [analyze_currency_data] reports 3 points, minimum 90, maximum 110,
    mean 100, last rate 90 and the change -10 with -10 percent; the first
    rate, which the change is taken from, is 100. *)
Theorem analyze_100_110_90 (d1 d2 d3 : datetime) :
  let df := Frame [{| date := d1; rate := 100 |};
                   {| date := d2; rate := 110 |};
                   {| date := d3; rate := 90 |}] in
  (rates <-? pd.col_rate df ;; pd.iloc_first rates) = inr 100%float /\
  exists period,
    analyze_currency_data (Some df) =
    ([Print MsgAnalysisHeader; Print period; Print (MsgCount 3);
      Print (MsgMin 90); Print (MsgMax 110); Print (MsgMean 100);
      Print (MsgLast 90); Print (MsgChange (-10) (-10))],
     inr tt).
Proof.
  split; [reflexivity|]. eexists. reflexivity.
Qed.

(** C6.  For [None] and for an empty frame [analyze_currency_data] prints
    that there is nothing to analyze and returns: no statistic is computed
    or printed, so neither the change nor the division behind the
    percentage is reached. *)
Theorem analyze_nothing (df : option DataFrame) :
  df = None \/ (exists frame, df = Some frame /\ pd.empty frame = true) ->
  analyze_currency_data df = ([Print MsgNothingToAnalyze], inr tt).
Proof.
  intros [-> | (frame & -> & Hempty)]; [reflexivity|].
  unfold analyze_currency_data. now rewrite Hempty.
Qed.

(** The statistics are printed exactly when there is a row. *)
Lemma analyze_reports_iff_rows (frame : DataFrame) :
  In (Print MsgAnalysisHeader) (events (analyze_currency_data (Some frame))) <->
  pd.empty frame = false.
Proof.
  unfold analyze_currency_data. destruct (pd.empty frame) eqn:He.
  - simpl. split; [intros [E|[]]; discriminate | discriminate].
  - split; [reflexivity|]. intros _.
    destruct frame as [|[|r rs]]; try discriminate. cbn -[pd.iloc_last].
    destruct (pd.iloc_last _); cbn; auto.
Qed.

Lemma plot_no_columns currency_name save_path :
  plot_currency_rate NoColumns currency_name save_path =
  ([Plt plt.figure], inl KeyError).
Proof. reflexivity. Qed.

Lemma plot_no_rows currency_name save_path :
  plot_currency_rate (Frame []) currency_name save_path =
  ([Plt plt.figure; Plt (plt.plot [] [])], inl ValueError).
Proof. reflexivity. Qed.

(** X19.  On an empty frame [plot_currency_rate] raises, and it does so
    before [savefig] is called, so that no file is touched.  More
    generally, when a call of [plot_currency_rate] raises, either
    [savefig] was never called or the exception is the one [savefig]
    itself raised for the path.  (What a [savefig] that fails leaves at
    the path is decided inside matplotlib.) *)
Theorem plot_empty_raises (df : DataFrame) (currency_name : string)
  (save_path : option string) :
  (pd.empty df = true ->
   exists e t, plot_currency_rate df currency_name save_path = (t, inl e) /\
               no_savefig t) /\
  (forall e t, plot_currency_rate df currency_name save_path = (t, inl e) ->
               no_savefig t \/
               exists path, truthy save_path = Some path /\
                            write_error path = Some e).
Proof.
  split.
  - intros Hempty. apply empty_frame in Hempty as [-> | ->].
    + rewrite plot_no_columns. do 2 eexists. split; [reflexivity|].
      intros path [E|[]]; discriminate.
    + rewrite plot_no_rows. do 2 eexists. split; [reflexivity|].
      intros path [E|[E|[]]]; discriminate.
  - intros e t. destruct df as [|[|r rs]].
    + rewrite plot_no_columns. intros [= <- <-]. left.
      intros path [E|[]]; discriminate.
    + rewrite plot_no_rows. intros [= <- <-]. left.
      intros path [E|[E|[]]]; discriminate.
    + unfold plot_currency_rate, pyplot_layout. cbn -[pd.iloc_last].
      destruct (layout_error plt.xticks _ _) as [e1|]; cbn -[pd.iloc_last].
      { intros [= <- <-]. left. intros path Hin.
        repeat (destruct Hin as [E|Hin]; try discriminate). destruct Hin. }
      destruct (layout_error plt.tight_layout _ _) as [e2|]; cbn -[pd.iloc_last].
      { intros [= <- <-]. left. intros path Hin.
        repeat (destruct Hin as [E|Hin]; try discriminate). destruct Hin. }
      destruct (iloc_last_cons (rate r) (map rate rs)) as [x ->].
      destruct (iloc_last_cons (date r) (map date rs)) as [y ->].
      cbn. destruct (truthy save_path) as [path|]; cbn; [|discriminate].
      destruct (write_error path) as [e'|] eqn:Hw; cbn; [|discriminate].
      intros [= <- <-]. right. eauto.
Qed.

End Reports.

Lemma analyze_nothing_witness :
  @analyze_currency_data Fixture.online (Some (Frame [])) =
  ([Print MsgNothingToAnalyze], inr tt).
Proof.
  apply (@analyze_nothing Fixture.online (Some (Frame []))).
  right. exists (Frame []). split; reflexivity.
Defined.

Lemma plot_empty_raises_witness :
  exists e t,
    @plot_currency_rate Fixture.online NoColumns "USD/RUB" (Some "usd_rub_chart.png")
    = (t, inl e) /\ no_savefig t.
Proof.
  apply (@plot_empty_raises Fixture.online NoColumns "USD/RUB" (Some "usd_rub_chart.png")).
  reflexivity.
Defined.

(** ** Traces of sequenced code *)

Section Traces.
Context {A B : Type}.

Lemma In_bind_l (m : Py A) (k : A -> Py B) ev :
  In ev (events m) -> In ev (events (bind m k)).
Proof.
  destruct m as [t [e|a]]; simpl; [auto|].
  destruct (k a) as [t' r]. simpl. intros Hin. apply in_or_app. now left.
Qed.

Lemma In_bind_r (m : Py A) (k : A -> Py B) t a ev :
  m = (t, inr a) -> In ev (events (k a)) -> In ev (events (bind m k)).
Proof.
  intros ->. simpl. destruct (k a) as [t' r]. simpl. intros Hin.
  apply in_or_app. now right.
Qed.

Lemma In_bind_inv (m : Py A) (k : A -> Py B) ev :
  In ev (events (bind m k)) ->
  In ev (events m) \/ exists a, outcome m = inr a /\ In ev (events (k a)).
Proof.
  destruct m as [t [e|a]]; simpl; [auto|].
  destruct (k a) as [t' r] eqn:Hk. simpl. intros Hin.
  apply in_app_or in Hin as [Hin|Hin]; [auto|].
  right. exists a. rewrite Hk. auto.
Qed.

Lemma In_try_l (m : Py A) (h : exn -> Py A) ev :
  In ev (events m) -> In ev (events (try_except m h)).
Proof.
  destruct m as [t [e|a]]; simpl; [|auto].
  destruct (h e) as [t' r]. simpl. intros Hin. apply in_or_app. now left.
Qed.

Lemma In_try_inv (m : Py A) (h : exn -> Py A) ev :
  In ev (events (try_except m h)) ->
  In ev (events m) \/ exists e, outcome m = inl e /\ In ev (events (h e)).
Proof.
  destruct m as [t [e|a]]; simpl; [|auto].
  destruct (h e) as [t' r] eqn:Hh. simpl. intros Hin.
  apply in_app_or in Hin as [Hin|Hin]; [auto|].
  right. exists e. rewrite Hh. auto.
Qed.

End Traces.

Lemma In_lift {A : Type} (r : exn + A) ev : ~ In ev (events (lift r)).
Proof. now intros []. Qed.

Lemma In_print m ev : In ev (events (print m)) -> ev = Print m.
Proof. now intros [<-|[]]. Qed.

(** ** The orchestration *)

Section Orchestration.
Context `{Runtime}.

(** Every request of [get_currency_rate] goes to the provider's address
    and asks for the currency it was called with. *)
Lemma get_currency_rate_requests currency_code days u params :
  In (HttpGet u params) (events (get_currency_rate currency_code days)) ->
  u = url /\ assoc "VAL_NM_RQ" params = Some currency_code.
Proof.
  unfold get_currency_rate.
  intros Hin. apply In_bind_inv in Hin as [Hin | (delta & _ & Hin)];
    [now apply In_lift in Hin|].
  apply In_bind_inv in Hin as [Hin | (start_date & _ & Hin)];
    [now apply In_lift in Hin|].
  apply In_try_inv in Hin as [Hin | (e & _ & Hin)].
  - apply In_bind_inv in Hin as [Hin | ([] & _ & Hin)];
      [apply In_print in Hin; discriminate|].
    apply In_bind_inv in Hin as [Hin | (response & _ & Hin)].
    + unfold requests.get in Hin.
      apply In_bind_inv in Hin as [Hin | ([] & _ & Hin)];
        [|now apply In_lift in Hin].
      destruct Hin as [[= <- <-]|[]]. split; reflexivity.
    + apply In_bind_inv in Hin as [Hin | ([] & _ & Hin)].
      { unfold requests.raise_for_status in Hin.
        destruct (_ && _) in Hin; destruct Hin. }
      apply In_bind_inv in Hin as [Hin | (root & _ & Hin)];
        [now apply In_lift in Hin|].
      apply In_bind_inv in Hin as [Hin | (data & _ & Hin)];
        [now apply In_lift in Hin|].
      apply In_bind_inv in Hin as [Hin | (df & _ & Hin)];
        [now apply In_lift in Hin|].
      apply In_bind_inv in Hin as [Hin | ([] & _ & Hin)];
        [apply In_print in Hin; discriminate|].
      destruct Hin.
  - apply In_bind_inv in Hin as [Hin | ([] & _ & Hin)];
      [apply In_print in Hin; discriminate|].
    destruct Hin.
Qed.

(** A window that exists is asked for. *)
Lemma get_currency_rate_asks currency_code days start_date :
  window days = inr start_date ->
  In (HttpGet url (query start_date currency_code))
     (events (get_currency_rate currency_code days)).
Proof.
  unfold window, get_currency_rate. intros Hw.
  destruct (timedelta days) as [e|delta]; [discriminate|]. simpl in Hw.
  eapply In_bind_r; [reflexivity|]. rewrite Hw.
  eapply In_bind_r; [reflexivity|].
  apply In_try_l. eapply In_bind_r; [reflexivity|].
  apply In_bind_l. unfold requests.get. apply In_bind_l. now left.
Qed.

(** A window that does not exist stops the call before anything happens. *)
Lemma get_currency_rate_overflow currency_code days e :
  window days = inl e ->
  get_currency_rate currency_code days = ([], inl e).
Proof.
  unfold window, get_currency_rate. intros Hw.
  destruct (timedelta days) as [e'|delta]; simpl in *; [congruence|].
  now rewrite Hw.
Qed.

(** C5 (as amended).  [main] hands a day count that is zero or negative to
    [get_currency_rate] as it is.  If the first day of the window,
    [now - days], is a date [datetime] can hold, the request for that
    window is sent; if not, the [OverflowError] of the date arithmetic
    escapes from [main] before any request.  No argument error is raised. *)
Theorem main_fetches_non_positive_days (args : Namespace) (currency_code : string) :
  days args <= 0 ->
  assoc (currency args) CURRENCY_CODES = Some currency_code ->
  match window (days args) with
  | inr start_date =>
      In (HttpGet url (query start_date currency_code)) (events (main args))
  | inl e =>
      main args =
      ([Print (MsgAnalyzing (currency args ++ "/RUB") (days args))], inl e)
  end.
Proof.
  intros _ Hcode. unfold main. rewrite Hcode.
  destruct (window (days args)) as [e|start_date] eqn:Hw.
  - cbn -[get_currency_rate]. now rewrite (get_currency_rate_overflow _ _ _ Hw).
  - eapply In_bind_r; [reflexivity|].
    eapply In_bind_r; [reflexivity|].
    apply In_bind_l. now apply get_currency_rate_asks.
Qed.

(** C4 (as amended).  In the run without arguments the request for EUR sits
    inside the branch taken when the call for USD returned a frame.  When
    that call returns [None], the run is over: it consists of the banner
    and of what the call for USD did, and no request other than the one
    for USD was sent. *)
Theorem usd_failure_ends_default_run (t : list event) :
  get_currency_rate "R01235" 30 = (t, inr None) ->
  dunder_main = (Print MsgBanner :: t, inr tt) /\
  forall u params,
    In (HttpGet u params) (events dunder_main) ->
    assoc "VAL_NM_RQ" params = Some "R01235".
Proof.
  intros Husd.
  assert (Hrun : dunder_main = (Print MsgBanner :: t, inr tt)).
  { unfold dunder_main. rewrite Husd. cbn. now rewrite app_nil_r. }
  split; [exact Hrun|].
  intros u params. rewrite Hrun. intros [E|Hin]; [discriminate|].
  apply (get_currency_rate_requests "R01235" 30 u). now rewrite Husd.
Qed.

End Orchestration.

(** C5 as stated fails: with [--days -5] the request is sent, for a window
    that starts five days after today, and [main] runs to its end. *)
Lemma non_positive_days_counterexample :
  In (HttpGet url [("date_req1", "06/02/2024"); ("date_req2", "01/02/2024");
                   ("VAL_NM_RQ", "R01235")])
     (events (@main Fixture.online
                {| currency := "USD"; days := -5; output := "currency_chart.png" |})) /\
  outcome (@main Fixture.online
             {| currency := "USD"; days := -5; output := "currency_chart.png" |})
  = inr tt.
Proof. split; [vm_compute; right; right; left; reflexivity | reflexivity]. Qed.

Lemma main_fetches_non_positive_days_witness :
  In (HttpGet url [("date_req1", "01/02/2024"); ("date_req2", "01/02/2024");
                   ("VAL_NM_RQ", "R01239")])
     (events (@main Fixture.online
                {| currency := "EUR"; days := 0; output := "currency_chart.png" |})).
Proof.
  apply (@main_fetches_non_positive_days Fixture.online
           {| currency := "EUR"; days := 0; output := "currency_chart.png" |}
           "R01239").
  - simpl. lia.
  - reflexivity.
Defined.

Example default_run_reaches_EUR_after_USD :
  In (HttpGet url [("date_req1", "02/01/2024"); ("date_req2", "01/02/2024");
                   ("VAL_NM_RQ", "R01239")])
     (events (@dunder_main Fixture.online)).
Proof. vm_compute. repeat (first [left; reflexivity | right]). Qed.

(** C4 as stated fails: when the network is down the run without arguments
    ends after the failed request for USD; EUR is not asked for. *)
Lemma usd_failure_counterexample :
  @dunder_main Fixture.offline =
  ([Print MsgBanner;
    Print (MsgRequesting "02/01/2024" "01/02/2024");
    HttpGet url [("date_req1", "02/01/2024"); ("date_req2", "01/02/2024");
                 ("VAL_NM_RQ", "R01235")];
    Print (MsgFetchError ConnectionError)],
   inr tt).
Proof. reflexivity. Qed.

Lemma usd_failure_ends_default_run_witness :
  @dunder_main Fixture.offline =
  (Print MsgBanner ::
   [Print (MsgRequesting "02/01/2024" "01/02/2024");
    HttpGet url [("date_req1", "02/01/2024"); ("date_req2", "01/02/2024");
                 ("VAL_NM_RQ", "R01235")];
    Print (MsgFetchError ConnectionError)],
   inr tt) /\
  forall u params,
    In (HttpGet u params) (events (@dunder_main Fixture.offline)) ->
    assoc "VAL_NM_RQ" params = Some "R01235".
Proof.
  apply (@usd_failure_ends_default_run Fixture.offline). reflexivity.
Defined.

(** ** The exported file *)

Lemma append_assoc (a b c : string) : ((a ++ b) ++ c = a ++ (b ++ c))%string.
Proof. induction a as [|x a IH]; simpl; [reflexivity|now rewrite IH]. Qed.

Lemma contains_append c (a b : string) :
  contains c (a ++ b)%string = contains c a || contains c b.
Proof.
  induction a as [|x a IH]; simpl; [reflexivity|].
  now rewrite IH, orb_assoc.
Qed.

Lemma split_not_nil sep (s : string) : split sep s <> [].
Proof.
  destruct s as [|c s]; simpl; [discriminate|].
  destruct (Ascii.eqb c sep); [discriminate|].
  destruct (split sep s); discriminate.
Qed.

Lemma split_plain sep (a : string) :
  contains sep a = false -> split sep a = [a].
Proof.
  induction a as [|x a IH]; simpl; [reflexivity|].
  intros Hc. apply orb_false_elim in Hc as [Hx Ha].
  now rewrite Hx, (IH Ha).
Qed.

Lemma split_at_sep sep (a b : string) :
  contains sep a = false ->
  split sep (a ++ String sep b)%string = a :: split sep b.
Proof.
  induction a as [|x a IH]; simpl.
  - intros _. now rewrite Ascii.eqb_refl.
  - intros Hc. apply orb_false_elim in Hc as [Hx Ha].
    now rewrite Hx, (IH Ha).
Qed.

Section CsvFile.
Context `{Runtime}.

Lemma csv_line_written r rest :
  (csv_line r ++ rest)%string = (written r ++ String LF rest)%string.
Proof.
  unfold csv_line, written, newline.
  now rewrite !append_assoc.
Qed.

Lemma written_one_line r : Rereadable r -> contains LF (written r) = false.
Proof.
  intros ([_ Hd] & [_ Hx] & _). unfold written.
  now rewrite !contains_append, Hd, Hx.
Qed.

Lemma read_row_written r : Rereadable r -> read_row (written r) = inr r.
Proof.
  intros ([Hd _] & [Hx _] & Hdate & Hrate). unfold read_row, written.
  change ("," ++ csv_rate (rate r))%string with (String "," (csv_rate (rate r))).
  rewrite (split_at_sep _ _ _ Hd), (split_plain _ _ Hx), Hdate. simpl.
  rewrite Hrate. simpl. now destruct r.
Qed.

Lemma lines_of_rows rs :
  Forall Rereadable rs ->
  lines_of (split LF (fold_right String.append "" (map csv_line rs)))
  = map written rs.
Proof.
  induction 1 as [|r rs Hr _ IH]; [reflexivity|].
  simpl fold_right. simpl map.
  rewrite csv_line_written, (split_at_sep _ _ _ (written_one_line _ Hr)).
  cbn [lines_of]. rewrite IH.
  destruct (split LF (fold_right String.append "" (map csv_line rs))) as [|p ps] eqn:Hs.
  - now apply split_not_nil in Hs.
  - reflexivity.
Qed.

Lemma read_rows_written rs :
  Forall Rereadable rs -> read_rows (map written rs) = inr rs.
Proof.
  induction 1 as [|r rs Hr _ IH]; [reflexivity|].
  simpl. now rewrite (read_row_written _ Hr), IH.
Qed.

(** The text written for a frame, read back, gives the rows of the frame
    in their order, when each date and rate survives being written and
    read. *)
Lemma csv_round_trip (rs : list row) :
  Forall Rereadable rs ->
  read_csv (csv_text (Frame rs)) = inr rs.
Proof.
  intros Hrs. unfold read_csv, csv_text, newline.
  change (("date,rate" ++ String LF "") ++ ?rest)%string
    with ("date,rate" ++ String LF rest)%string.
  rewrite split_at_sep by reflexivity.
  cbn [lines_of].
  destruct (split LF (fold_right String.append "" (map csv_line rs))) as [|p ps] eqn:Hs.
  - now apply split_not_nil in Hs.
  - rewrite <- Hs, (lines_of_rows _ Hrs). simpl.
    now apply read_rows_written.
Qed.

(** What [main] writes is that text. *)
Lemma to_csv_writes df csv_filename :
  In (ToCsv csv_filename (csv_text df)) (events (to_csv df csv_filename)).
Proof. unfold to_csv. apply In_bind_l. now left. Qed.

End CsvFile.

Lemma csv_round_trip_witness :
  @read_csv Fixture.online
    (@csv_text Fixture.online
       (Frame [{| date := 738886; rate := 75.5 |};
               {| date := 738887; rate := 76.2 |};
               {| date := 738888; rate := 75.9 |}]))
  = inr [{| date := 738886; rate := 75.5 |};
         {| date := 738887; rate := 76.2 |};
         {| date := 738888; rate := 75.9 |}].
Proof.
  apply (@csv_round_trip Fixture.online).
  repeat constructor; reflexivity.
Defined.

(** * Further properties of the script *)

(** ** What a call of [get_currency_rate] looks like from outside *)

Lemma window_spec `{Runtime} days :
  1 <= now <= MAXORDINAL ->
  window days =
  if (1 <=? now - days) && (now - days <=? MAXORDINAL)
  then inr (now - days) else inl OverflowError.
Proof.
  intros Hnow. unfold window, timedelta, datetime_sub, MAXORDINAL in *.
  destruct (Z.abs days <=? 999999999) eqn:Habs; simpl; [reflexivity|].
  destruct ((1 <=? now - days) && (now - days <=? 3652059)) eqn:Hr; [|reflexivity].
  lia.
Qed.

Section CallShape.
Context `{Runtime}.

(** Once the window exists, a call prints the line that announces the
    request, sends the request, and prints one more line: the error it
    caught, with [None] returned, or the number of rows of the frame it
    returns. *)
Lemma get_currency_rate_shape currency_code days start_date :
  window days = inr start_date ->
  exists m v,
    get_currency_rate currency_code days =
    ([Print (MsgRequesting (strftime start_date "%d/%m/%Y")
                           (strftime now "%d/%m/%Y"));
      HttpGet url (query start_date currency_code);
      Print m], inr v) /\
    ((exists e, m = MsgFetchError e /\ v = None) \/
     (exists df, m = MsgReceived (pd.len df) /\ v = Some df)).
Proof.
  unfold window, get_currency_rate. intros Hw.
  destruct (timedelta days) as [e|delta]; [discriminate|]. simpl in Hw.
  cbn [lift bind]. rewrite Hw. cbn [lift bind app].
  unfold requests.get. fold (query start_date currency_code).
  destruct (requests_get url (query start_date currency_code)) as [e|response].
  { cbn. do 2 eexists. split; [reflexivity|]. left. eauto. }
  cbn -[Z.leb Z.ltb andb]. unfold requests.raise_for_status.
  destruct ((400 <=? status_code response) && (status_code response <? 600)).
  { cbn. do 2 eexists. split; [reflexivity|]. left. eauto. }
  cbn. destruct (fromstring (content response)) as [e|root].
  { cbn. do 2 eexists. split; [reflexivity|]. left. eauto. }
  cbn. destruct (for_records (findall root "Record") []) as [e|data].
  { cbn. do 2 eexists. split; [reflexivity|]. left. eauto. }
  cbn. destruct (sort_values (pd.DataFrame data)) as [e|df].
  { cbn. do 2 eexists. split; [reflexivity|]. left. eauto. }
  cbn. do 2 eexists. split; [reflexivity|]. right. eauto.
Qed.

(** The trace of a call is empty or made of these three events. *)
Lemma get_currency_rate_events currency_code days :
  events (get_currency_rate currency_code days) = [] \/
  exists m u q m',
    events (get_currency_rate currency_code days) = [Print m; HttpGet u q; Print m'].
Proof.
  destruct (window days) as [e|start_date] eqn:Hw.
  - left. now rewrite (get_currency_rate_overflow _ _ _ Hw).
  - right.
    destruct (get_currency_rate_shape currency_code days _ Hw) as (m & v & -> & _).
    do 4 eexists. reflexivity.
Qed.

(** X1.  The only exception that leaves [get_currency_rate] is the
    [OverflowError] of the date arithmetic in front of the [try]: the call
    raises exactly when [now - days] is no date [datetime] can hold, and
    returns (a frame or [None]) in every other case. *)
Theorem get_currency_rate_raises_iff_overflow currency_code days e :
  1 <= now <= MAXORDINAL ->
  outcome (get_currency_rate currency_code days) = inl e <->
  e = OverflowError /\ ~ (1 <= now - days <= MAXORDINAL).
Proof.
  intros Hnow. pose proof (window_spec days Hnow) as Hw.
  destruct ((1 <=? now - days) && (now - days <=? MAXORDINAL)) eqn:Hr.
  - destruct (get_currency_rate_shape currency_code days _ Hw) as (m & v & -> & _).
    split; [discriminate|]. intros [_ Hout]. lia.
  - rewrite (get_currency_rate_overflow _ _ _ Hw). simpl. split.
    + intros [= <-]. split; [reflexivity|]. lia.
    + now intros [-> _].
Qed.

(** X2.  One call sends one request, and none when the window does not
    exist: nothing is retried, whatever the answer. *)
Theorem get_currency_rate_sends_one_request currency_code days :
  requests_sent (events (get_currency_rate currency_code days)) =
  match window days with
  | inr _ => 1%nat
  | inl _ => 0%nat
  end.
Proof.
  destruct (window days) as [e|start_date] eqn:Hw.
  - now rewrite (get_currency_rate_overflow _ _ _ Hw).
  - destruct (get_currency_rate_shape currency_code days _ Hw) as (m & v & -> & _).
    reflexivity.
Qed.

(** X3.  [get_currency_rate] only prints and talks to the network: it
    draws nothing and writes no file. *)
Theorem get_currency_rate_console_or_network currency_code days :
  Forall console_or_network (events (get_currency_rate currency_code days)).
Proof.
  destruct (get_currency_rate_events currency_code days)
    as [-> | (m & u & q & m' & ->)]; repeat constructor.
Qed.

(** X4.  When the request cannot be completed, or is answered with a
    status from 400 to 599, [get_currency_rate] returns [None] after
    printing that error; the body of the answer is not looked at. *)
Theorem fetch_failure_gives_None currency_code days start_date e :
  window days = inr start_date ->
  requests_get url (query start_date currency_code) = inl e \/
  (exists response,
     requests_get url (query start_date currency_code) = inr response /\
     400 <= status_code response < 600 /\ e = HTTPError) ->
  get_currency_rate currency_code days =
  ([Print (MsgRequesting (strftime start_date "%d/%m/%Y")
                         (strftime now "%d/%m/%Y"));
    HttpGet url (query start_date currency_code);
    Print (MsgFetchError e)], inr None).
Proof.
  unfold window, get_currency_rate. intros Hw Hfail.
  destruct (timedelta days) as [e'|delta]; [discriminate|]. simpl in Hw.
  cbn [lift bind]. rewrite Hw. cbn [lift bind app].
  unfold requests.get. fold (query start_date currency_code).
  destruct Hfail as [-> | (response & -> & Hstatus & ->)]; [reflexivity|].
  cbn -[Z.leb Z.ltb andb]. unfold requests.raise_for_status.
  replace ((400 <=? status_code response) && (status_code response <? 600))
    with true by (symmetry; apply andb_true_intro; split; lia).
  reflexivity.
Qed.

End CallShape.

Lemma get_currency_rate_raises_iff_overflow_witness :
  outcome (@get_currency_rate Fixture.online "R01235" (-30000000)) = inl OverflowError.
Proof.
  apply (@get_currency_rate_raises_iff_overflow Fixture.online "R01235" (-30000000)).
  - simpl. unfold MAXORDINAL. lia.
  - split; [reflexivity|]. simpl. unfold MAXORDINAL. lia.
Defined.

Lemma fetch_failure_gives_None_witness :
  @get_currency_rate Fixture.online "R00404" 30 =
  ([Print (MsgRequesting "02/01/2024" "01/02/2024");
    HttpGet url [("date_req1", "02/01/2024"); ("date_req2", "01/02/2024");
                 ("VAL_NM_RQ", "R00404")];
    Print (MsgFetchError HTTPError)], inr None).
Proof.
  apply (@fetch_failure_gives_None Fixture.online "R00404" 30 738887 HTTPError).
  - reflexivity.
  - right. exists {| status_code := 404; content := "" |}.
    split; [reflexivity|]. simpl. split; [lia|reflexivity].
Defined.

(** ** What a returned frame tells about the payload *)

Section ReturnedFrame.
Context `{Runtime}.

(** A frame comes back only from an answer that was fetched and parsed. *)
Lemma get_currency_rate_Some_inv currency_code days df :
  outcome (get_currency_rate currency_code days) = inr (Some df) ->
  exists response,
    Fetched currency_code days response /\ parse (content response) = inr df.
Proof.
  unfold get_currency_rate, parse, Fetched.
  destruct (timedelta days) as [e|delta] eqn:Hdelta; [discriminate|].
  assert (delta = days) as ->.
  { unfold timedelta in Hdelta. destruct (Z.abs days <=? 999999999); congruence. }
  cbn [lift bind].
  destruct (datetime_sub now days) as [e|start_date] eqn:Hstart; [discriminate|].
  cbn [lift bind app]. unfold requests.get. fold (query start_date currency_code).
  destruct (requests_get url (query start_date currency_code)) as [e|response] eqn:Hget;
    [discriminate|].
  cbn -[Z.leb Z.ltb andb].
  destruct (requests.raise_for_status response) as [t [e|[]]] eqn:Hstatus;
    [discriminate|].
  cbn. destruct (fromstring (content response)) as [e|root] eqn:Hroot;
    [discriminate|].
  cbn. destruct (for_records (findall root "Record") []) as [e|data] eqn:Hdata;
    [discriminate|].
  cbn. destruct (sort_values (pd.DataFrame data)) as [e|df'] eqn:Hsort;
    [discriminate|].
  cbn. intros [= <-]. exists response. split.
  - exists start_date. unfold outcome. rewrite Hstatus. auto.
  - rewrite Hroot. cbn. rewrite Hdata. cbn. now rewrite Hsort.
Qed.

(** X5.  [get_currency_rate] never returns an empty frame: when it
    returns a frame, the frame has a row.  (So the test [not df.empty] of
    [main] can only fail on [None].) *)
Theorem returned_frame_has_rows currency_code days df :
  SortsByDate sort_by_date ->
  outcome (get_currency_rate currency_code days) = inr (Some df) ->
  pd.empty df = false.
Proof.
  intros [Hperm _] Hout.
  destruct (get_currency_rate_Some_inv _ _ _ Hout) as (response & _ & Hparse).
  destruct (parse_inv _ _ Hparse) as (root & rs & _ & _ & Hne & ->).
  unfold pd.empty. simpl.
  destruct (sort_by_date rs) as [|r rs'] eqn:Hs; [|reflexivity].
  specialize (Hperm rs). rewrite Hs in Hperm.
  apply Permutation_nil in Hperm. contradiction.
Qed.

(** X6.  No record is skipped: when a frame is returned, it has as many
    rows as the answer has [Record] elements, every one of them was
    well-formed, and that number is the one printed. *)
Theorem returned_frame_counts_every_record currency_code days response root df :
  SortsByDate sort_by_date ->
  Fetched currency_code days response ->
  fromstring (content response) = inr root ->
  outcome (get_currency_rate currency_code days) = inr (Some df) ->
  pd.len df = List.length (findall root "Record") /\
  Forall (fun record => exists r, WellFormed record r) (findall root "Record") /\
  In (Print (MsgReceived (List.length (findall root "Record"))))
     (events (get_currency_rate currency_code days)).
Proof.
  intros [Hperm _] Hfetched Hroot Hout.
  pose proof Hout as Hparse.
  rewrite (get_currency_rate_fetched _ _ _ Hfetched) in Hparse.
  destruct (parse (content response)) as [e|df'] eqn:Hp; [discriminate|].
  injection Hparse as ->.
  destruct (parse_inv _ _ Hp) as (root' & rs & Hroot' & Hall & _ & ->).
  assert (root' = root) as -> by congruence.
  assert (Hlen : pd.len (Frame (sort_by_date rs)) = List.length (findall root "Record")).
  { unfold pd.len. simpl. rewrite (Permutation_length (Hperm rs)).
    symmetry. eapply Forall2_length; eauto. }
  split; [exact Hlen|]. split.
  - clear -Hall. induction Hall; constructor; eauto.
  - destruct Hfetched as (start_date & Hdelta & Hstart & _).
    assert (Hw : window days = inr start_date).
    { unfold window. rewrite Hdelta. exact Hstart. }
    destruct (get_currency_rate_shape currency_code days _ Hw)
      as (m & v & Hrun & Hcase).
    rewrite Hrun in Hout |- *. simpl in Hout. injection Hout as ->.
    destruct Hcase as [(e & _ & [=]) | (df & -> & [= <-])].
    rewrite Hlen. simpl. auto.
Qed.

End ReturnedFrame.

Lemma returned_frame_has_rows_witness :
  pd.empty (Frame [{| date := 738886; rate := 75.5 |};
                   {| date := 738887; rate := 76.2 |};
                   {| date := 738888; rate := 75.9 |}]) = false.
Proof.
  apply (@returned_frame_has_rows Fixture.online "R01235" 30).
  - apply insertion_sort_SortsByDate.
  - reflexivity.
Defined.

Lemma returned_frame_counts_every_record_witness :
  pd.len (Frame [{| date := 738886; rate := 75.5 |};
                 {| date := 738887; rate := 76.2 |};
                 {| date := 738888; rate := 75.9 |}])
  = List.length (findall Fixture.three_days "Record") /\
  Forall (fun record => exists r, @WellFormed Fixture.online record r)
         (findall Fixture.three_days "Record") /\
  In (Print (MsgReceived (List.length (findall Fixture.three_days "Record"))))
     (events (@get_currency_rate Fixture.online "R01235" 30)).
Proof.
  apply (@returned_frame_counts_every_record Fixture.online "R01235" 30
           {| status_code := 200; content := Fixture.three_days_xml |}).
  - apply insertion_sort_SortsByDate.
  - now apply fixture_fetched.
  - reflexivity.
  - reflexivity.
Defined.

(** ** The report and the chart of a frame with rows *)

Lemma last_cons {A : Type} (x d : A) (l : list A) : last (x :: l) d = last l x.
Proof.
  revert x d. induction l as [|y l IH]; intros x d; [reflexivity|].
  change (last (x :: y :: l) d) with (last (y :: l) d). now rewrite !IH.
Qed.

Lemma rev_head_last {A : Type} (l : list A) : forall x,
  exists ys, rev (x :: l) = last l x :: ys.
Proof.
  induction l as [|z l IH]; intros x.
  - exists []. reflexivity.
  - destruct (IH z) as [ys Hr]. exists (ys ++ [x]).
    change (rev (x :: z :: l)) with (rev (z :: l) ++ [x]).
    rewrite Hr, last_cons. reflexivity.
Qed.

Lemma iloc_last_last {A : Type} (x : A) (l : list A) :
  pd.iloc_last (x :: l) = inr (last l x).
Proof.
  unfold pd.iloc_last. destruct (rev_head_last l x) as [ys ->]. reflexivity.
Qed.

Lemma fold_min_sorted (d : Z) (ds : list Z) :
  Forall (Z.le d) ds -> fold_left Z.min ds d = d.
Proof.
  induction 1 as [|x ds Hx _ IH]; simpl; [reflexivity|].
  now rewrite Z.min_l.
Qed.

Lemma fold_max_sorted (ds : list Z) : forall d,
  StronglySorted Z.le (d :: ds) -> fold_left Z.max ds d = last ds d.
Proof.
  induction ds as [|x ds IH]; intros d Hs; [reflexivity|].
  inversion Hs as [|? ? Hrest Hall]; subst. inversion Hall; subst.
  simpl fold_left. rewrite Z.max_r by assumption.
  rewrite (IH x Hrest). symmetry. apply last_cons.
Qed.

Lemma sorted_dates rows :
  StronglySorted date_le rows -> StronglySorted Z.le (map date rows).
Proof.
  induction 1 as [|r rows _ IH Hall]; simpl; constructor; [exact IH|].
  apply Forall_map. exact Hall.
Qed.

Section FrameWithRows.
Context `{Runtime}.
Variables (r : row) (rs : list row).

Let first_day : string :=
  strftime (fold_left Z.min (map date rs) (date r)) "%d.%m.%Y".
Let last_day : string :=
  strftime (fold_left Z.max (map date rs) (date r)) "%d.%m.%Y".
Let last_rate : float := last (map rate rs) (rate r).
Let last_date : datetime := last (map date rs) (date r).
Let xs : list datetime := map date (r :: rs).
Let ys : list float := map rate (r :: rs).

(** The report of a frame with rows, line by line. *)
Lemma analyze_rows :
  analyze_currency_data (Some (Frame (r :: rs))) =
  ([Print MsgAnalysisHeader;
    Print (MsgPeriod first_day last_day);
    Print (MsgCount (S (List.length rs)));
    Print (MsgMin (pd.min (map rate (r :: rs))));
    Print (MsgMax (pd.max (map rate (r :: rs))));
    Print (MsgMean (pd.mean (map rate (r :: rs))));
    Print (MsgLast last_rate);
    Print (MsgChange (last_rate - rate r) ((last_rate - rate r) / rate r * 100))],
   inr tt).
Proof.
  unfold analyze_currency_data. cbn -[pd.iloc_last pd.min pd.max pd.mean map].
  cbn [map]. rewrite iloc_last_last. reflexivity.
Qed.

(** The chart of a frame with rows, call by call: it stops at [xticks] or
    at [tight_layout] when matplotlib cannot lay the data out, at
    [savefig] when the file cannot be written, and runs to [close]
    otherwise. *)
Lemma plot_rows currency_name save_path :
  plot_currency_rate (Frame (r :: rs)) currency_name save_path =
  match layout_error plt.xticks xs ys with
  | Some e =>
      ([Plt plt.figure; Plt (plt.plot xs ys);
        Plt (plt.title currency_name first_day last_day);
        Plt plt.xlabel; Plt plt.ylabel; Plt plt.grid; Plt plt.xticks], inl e)
  | None =>
      match layout_error plt.tight_layout xs ys with
      | Some e =>
          ([Plt plt.figure; Plt (plt.plot xs ys);
            Plt (plt.title currency_name first_day last_day);
            Plt plt.xlabel; Plt plt.ylabel; Plt plt.grid; Plt plt.xticks;
            Plt plt.tight_layout], inl e)
      | None =>
          ([Plt plt.figure; Plt (plt.plot xs ys);
            Plt (plt.title currency_name first_day last_day);
            Plt plt.xlabel; Plt plt.ylabel; Plt plt.grid; Plt plt.xticks;
            Plt plt.tight_layout;
            Plt (plt.annotate last_rate last_date)] ++
           match truthy save_path with
           | None => [Plt plt.close]
           | Some path =>
               match write_error path with
               | None => [Plt (plt.savefig path); Print (MsgChartSaved path);
                          Plt plt.close]
               | Some _ => [Plt (plt.savefig path)]
               end
           end,
           match truthy save_path with
           | None => inr tt
           | Some path =>
               match write_error path with
               | None => inr tt
               | Some e => inl e
               end
           end)
      end
  end.
Proof.
  unfold plot_currency_rate, pyplot_layout. cbn -[pd.iloc_last map].
  fold xs ys.
  destruct (layout_error plt.xticks xs ys) as [e|]; [reflexivity|].
  cbn -[pd.iloc_last map].
  destruct (layout_error plt.tight_layout xs ys) as [e|]; [reflexivity|].
  cbn -[pd.iloc_last map]. unfold xs, ys. cbn [map].
  rewrite !iloc_last_last. cbn.
  destruct (truthy save_path) as [path|]; [|reflexivity].
  cbn. destruct (write_error path); reflexivity.
Qed.

End FrameWithRows.

Lemma last_map {A B : Type} (f : A -> B) (l : list A) (x : A) :
  last (map f l) (f x) = f (last l x).
Proof.
  revert x. induction l as [|y l IH]; intros x; [reflexivity|].
  change (map f (y :: l)) with (f y :: map f l).
  now rewrite !last_cons, IH.
Qed.

(** Solves [In ev l] and refutes it on an explicit list of events. *)
Ltac in_trace :=
  cbn [In app fst snd];
  repeat (first [left; reflexivity | right]).

Ltac not_in_trace H :=
  cbn [In app fst snd] in H;
  repeat (destruct H as [H|H]; [discriminate H|]); destruct H.

Section ReportAndChart.
Context `{Runtime}.

Lemma analyze_prints_only (df : option DataFrame) :
  Forall is_print (events (analyze_currency_data df)).
Proof.
  destruct df as [[|[|r rs]]|]; try rewrite analyze_rows; repeat constructor.
Qed.

(** X7.  [analyze_currency_data] never raises, whatever it is given, and
    all it does is print: with a first rate of zero the percentage is what
    float division makes of it, not an exception. *)
Theorem analyze_never_raises (df : option DataFrame) :
  outcome (analyze_currency_data df) = inr tt /\
  Forall is_print (events (analyze_currency_data df)).
Proof.
  split; [|apply analyze_prints_only].
  destruct df as [[|[|r rs]]|]; try rewrite analyze_rows; reflexivity.
Qed.

(** The events of a chart are pyplot calls and prints. *)
Lemma plot_draws_and_prints df currency_name save_path :
  Forall (fun ev => match ev with Plt _ | Print _ => True | _ => False end)
         (events (plot_currency_rate df currency_name save_path)).
Proof.
  destruct df as [|[|r rs]].
  - rewrite plot_no_columns. repeat constructor.
  - rewrite plot_no_rows. repeat constructor.
  - rewrite plot_rows.
    destruct (layout_error plt.xticks _ _); [repeat constructor|].
    destruct (layout_error plt.tight_layout _ _); [repeat constructor|].
    unfold events. cbn [fst]. apply Forall_app. split; [repeat constructor|].
    destruct (truthy save_path) as [path|]; [destruct (write_error path)|];
      repeat constructor.
Qed.

(** X8.  [plot_currency_rate] opens a figure in every call and closes it
    exactly when it returns: whenever it raises (empty frame, data that
    cannot be laid out, file that cannot be written) the figure stays
    open. *)
Theorem plot_closes_iff_returns (df : DataFrame) (currency_name : string)
  (save_path : option string) :
  In (Plt plt.figure) (events (plot_currency_rate df currency_name save_path)) /\
  (In (Plt plt.close) (events (plot_currency_rate df currency_name save_path)) <->
   outcome (plot_currency_rate df currency_name save_path) = inr tt).
Proof.
  destruct df as [|[|r rs]].
  - rewrite plot_no_columns. simpl. split; [auto|].
    split; [intros [E|[]]; discriminate | discriminate].
  - rewrite plot_no_rows. simpl. split; [auto|].
    split; [intros [E|[E|[]]]; discriminate | discriminate].
  - rewrite plot_rows.
    destruct (layout_error plt.xticks _ _) as [e|].
    { unfold events, outcome. split; [in_trace|].
      split; [intros Hin; not_in_trace Hin | discriminate]. }
    destruct (layout_error plt.tight_layout _ _) as [e|].
    { unfold events, outcome. split; [in_trace|].
      split; [intros Hin; not_in_trace Hin | discriminate]. }
    unfold events, outcome. cbn [fst snd]. split; [now left|].
    destruct (truthy save_path) as [path|]; [destruct (write_error path)|].
    + split; [intros Hin; not_in_trace Hin | discriminate].
    + split; [reflexivity|]. intros _. in_trace.
    + split; [reflexivity|]. intros _. in_trace.
Qed.

(** X9.  [savefig] is called for a path exactly when the frame has rows,
    [xticks] and [tight_layout] went through on its data, and that path is
    the one given, neither [None] nor the empty string. *)
Theorem plot_savefig_iff (df : DataFrame) (currency_name : string)
  (save_path : option string) (path : string) :
  In (Plt (plt.savefig path))
     (events (plot_currency_rate df currency_name save_path)) <->
  truthy save_path = Some path /\ pd.empty df = false /\
  layout_error plt.xticks (map date (pd.rows df)) (map rate (pd.rows df)) = None /\
  layout_error plt.tight_layout (map date (pd.rows df)) (map rate (pd.rows df))
  = None.
Proof.
  destruct df as [|[|r rs]].
  - rewrite plot_no_columns. split; [intros Hin; not_in_trace Hin|].
    intros (_ & E & _). discriminate.
  - rewrite plot_no_rows. split; [intros Hin; not_in_trace Hin|].
    intros (_ & E & _). discriminate.
  - rewrite plot_rows. cbn [pd.rows].
    destruct (layout_error plt.xticks _ _) as [e|].
    { split; [intros Hin; not_in_trace Hin|]. intros (_ & _ & E & _). discriminate. }
    destruct (layout_error plt.tight_layout _ _) as [e|].
    { split; [intros Hin; not_in_trace Hin|]. intros (_ & _ & _ & E). discriminate. }
    unfold events. cbn [fst].
    destruct (truthy save_path) as [path'|]; [destruct (write_error path')|].
    + split.
      * intros Hin. cbn [In app] in Hin.
        repeat (destruct Hin as [E|Hin]; try discriminate);
          [injection E as ->; auto | destruct Hin].
      * intros ([= ->] & _). in_trace.
    + split.
      * intros Hin. cbn [In app] in Hin.
        repeat (destruct Hin as [E|Hin]; try discriminate);
          [injection E as ->; auto | destruct Hin].
      * intros ([= ->] & _). in_trace.
    + split; [intros Hin; not_in_trace Hin|]. intros (E & _). discriminate.
Qed.

(** X10.  On a frame sorted by date, which is what [get_currency_rate]
    returns, the period in the report and in the title of the chart runs
    from the date of the first row to the date of the last row. *)
Theorem period_of_sorted_frame (r : row) (rs : list row)
  (currency_name : string) (save_path : option string) :
  StronglySorted date_le (r :: rs) ->
  In (Print (MsgPeriod (strftime (date r) "%d.%m.%Y")
                       (strftime (date (last rs r)) "%d.%m.%Y")))
     (events (analyze_currency_data (Some (Frame (r :: rs))))) /\
  In (Plt (plt.title currency_name (strftime (date r) "%d.%m.%Y")
                     (strftime (date (last rs r)) "%d.%m.%Y")))
     (events (plot_currency_rate (Frame (r :: rs)) currency_name save_path)).
Proof.
  intros Hsorted. apply sorted_dates in Hsorted. simpl in Hsorted.
  rewrite analyze_rows, plot_rows.
  rewrite (fold_max_sorted _ _ Hsorted), last_map.
  rewrite fold_min_sorted by (inversion Hsorted; assumption).
  split; [unfold events; in_trace|].
  destruct (layout_error plt.xticks _ _); [unfold events; in_trace|].
  destruct (layout_error plt.tight_layout _ _); [unfold events; in_trace|].
  unfold events. cbn [fst]. apply in_or_app. left. in_trace.
Qed.


End ReportAndChart.

Lemma period_of_sorted_frame_witness :
  In (Print (MsgPeriod "01.01.2024" "03.01.2024"))
     (events (@analyze_currency_data Fixture.online
                (Some (Frame [{| date := 738886; rate := 75.5 |};
                              {| date := 738887; rate := 76.2 |};
                              {| date := 738888; rate := 75.9 |}])))) /\
  In (Plt (plt.title "USD/RUB" "01.01.2024" "03.01.2024"))
     (events (@plot_currency_rate Fixture.online
                (Frame [{| date := 738886; rate := 75.5 |};
                        {| date := 738887; rate := 76.2 |};
                        {| date := 738888; rate := 75.9 |}])
                "USD/RUB" None)).
Proof.
  apply (@period_of_sorted_frame Fixture.online
           {| date := 738886; rate := 75.5 |}
           [{| date := 738887; rate := 76.2 |};
            {| date := 738888; rate := 75.9 |}] "USD/RUB" None).
  repeat constructor; unfold date_le; simpl; lia.
Defined.


(** ** Effects of [main] and of the run without arguments *)

Lemma Forall_bind {A B : Type} (P : event -> Prop) (m : Py A) (k : A -> Py B) :
  Forall P (events m) ->
  (forall a, outcome m = inr a -> Forall P (events (k a))) ->
  Forall P (events (bind m k)).
Proof.
  destruct m as [t [e|a]]; simpl; intros Ht Hk; [exact Ht|].
  specialize (Hk a eq_refl). destruct (k a) as [t' r]. simpl in *.
  apply Forall_app. auto.
Qed.

Lemma console_not_export ev : console_or_network ev -> not_export ev.
Proof. now destruct ev. Qed.

Lemma print_not_export ev : is_print ev -> not_export ev.
Proof. now destruct ev. Qed.

Section MainEffects.
Context `{Runtime}.

Lemma plot_not_export df currency_name save_path :
  Forall not_export (events (plot_currency_rate df currency_name save_path)).
Proof.
  eapply Forall_impl; [|apply plot_draws_and_prints]. now intros [].
Qed.

Lemma analyze_not_export df :
  Forall not_export (events (analyze_currency_data df)).
Proof.
  eapply Forall_impl; [apply print_not_export|]. apply analyze_prints_only.
Qed.

Lemma get_currency_rate_not_export currency_code days :
  Forall not_export (events (get_currency_rate currency_code days)).
Proof.
  destruct (get_currency_rate_events currency_code days)
    as [-> | (m & u & q & m' & ->)]; repeat constructor.
Qed.

(** X12.  When the fetch returns [None], [main] prints that no data could
    be had and returns: no figure is drawn and no file is written. *)
Theorem main_without_data (args : Namespace) (currency_code : string)
  (t : list event) :
  assoc (currency args) CURRENCY_CODES = Some currency_code ->
  get_currency_rate currency_code (days args) = (t, inr None) ->
  main args =
  (Print (MsgAnalyzing (currency args ++ "/RUB") (days args)) :: t
   ++ [Print MsgNoData], inr tt) /\
  Forall console_or_network (events (main args)).
Proof.
  intros Hcode Hget.
  assert (Hrun : main args =
    (Print (MsgAnalyzing (currency args ++ "/RUB") (days args)) :: t
     ++ [Print MsgNoData], inr tt)).
  { unfold main. rewrite Hcode. cbn -[get_currency_rate]. rewrite Hget. reflexivity. }
  split; [exact Hrun|]. rewrite Hrun. unfold events. cbn [fst].
  constructor; [exact I|]. apply Forall_app. split; [|repeat constructor].
  destruct (get_currency_rate_events currency_code (days args))
    as [Ht | (m & u & q & m' & Ht)]; rewrite Hget in Ht; simpl in Ht; subst t;
    repeat constructor.
Qed.

(** X13.  The chart comes before the export and nothing in [main] catches
    what it raises.  When [plot_currency_rate] raises on the fetched frame
    (matplotlib cannot lay the data out, or the file cannot be saved), that
    exception leaves [main] and the CSV file is not written, although the
    data was fetched. *)
Theorem main_chart_failure_loses_export (args : Namespace)
  (currency_code : string) (t : list event) (r : row) (rs : list row) (e : exn) :
  assoc (currency args) CURRENCY_CODES = Some currency_code ->
  get_currency_rate currency_code (days args) = (t, inr (Some (Frame (r :: rs)))) ->
  outcome (plot_currency_rate (Frame (r :: rs)) (currency args ++ "/RUB")
             (Some (output args))) = inl e ->
  outcome (main args) = inl e /\
  Forall not_export (events (main args)).
Proof.
  intros Hcode Hget Hplot. split.
  - unfold main. rewrite Hcode.
    cbn -[get_currency_rate analyze_currency_data plot_currency_rate to_csv].
    rewrite Hget.
    cbn -[get_currency_rate analyze_currency_data plot_currency_rate to_csv].
    rewrite analyze_rows.
    cbn -[get_currency_rate analyze_currency_data plot_currency_rate to_csv].
    destruct (plot_currency_rate _ _ _) as [tp [e'|[]]]; simpl in Hplot;
      [|discriminate].
    injection Hplot as ->. reflexivity.
  - unfold main. rewrite Hcode.
    apply Forall_bind; [constructor|]. intros code [= <-].
    apply Forall_bind; [repeat constructor|]. intros _ _.
    apply Forall_bind; [apply get_currency_rate_not_export|].
    intros df Hdf. rewrite Hget in Hdf. injection Hdf as <-.
    cbn [pd.empty pd.rows negb].
    apply Forall_bind; [apply analyze_not_export|]. intros _ _.
    apply Forall_bind; [apply plot_not_export|]. intros [] Hreturned.
    rewrite Hreturned in Hplot. discriminate.
Qed.

(** X14.  When the data was fetched, the chart went through and the CSV
    file can be written, [main] returns after these steps in this order:
    the announcement, the fetch, the report, the chart, and last the
    export of the very frame that [get_currency_rate] returned, to
    [<currency in lower case>_rates.csv]. *)
Theorem main_exports_returned_frame (args : Namespace)
  (currency_code : string) (t : list event) (r : row) (rs : list row) :
  assoc (currency args) CURRENCY_CODES = Some currency_code ->
  get_currency_rate currency_code (days args) = (t, inr (Some (Frame (r :: rs)))) ->
  outcome (plot_currency_rate (Frame (r :: rs)) (currency args ++ "/RUB")
             (Some (output args))) = inr tt ->
  write_error (lower (currency args) ++ "_rates.csv")%string = None ->
  main args =
  (Print (MsgAnalyzing (currency args ++ "/RUB") (days args)) :: t
   ++ events (analyze_currency_data (Some (Frame (r :: rs))))
   ++ events (plot_currency_rate (Frame (r :: rs)) (currency args ++ "/RUB")
                (Some (output args)))
   ++ [ToCsv (lower (currency args) ++ "_rates.csv")%string
         (csv_text (Frame (r :: rs)));
       Print (MsgDataSaved (lower (currency args) ++ "_rates.csv")%string)],
   inr tt).
Proof.
  intros Hcode Hget Hplot Hcsv. unfold main. rewrite Hcode.
  cbn -[get_currency_rate analyze_currency_data plot_currency_rate to_csv].
  rewrite Hget.
  cbn -[get_currency_rate analyze_currency_data plot_currency_rate to_csv].
  rewrite analyze_rows.
  cbn -[get_currency_rate analyze_currency_data plot_currency_rate to_csv].
  destruct (plot_currency_rate _ _ _) as [tp [e'|[]]]; simpl in Hplot;
    [discriminate|].
  unfold to_csv. rewrite Hcsv. reflexivity.
Qed.

End MainEffects.

Lemma requests_sent_app (t t' : list event) :
  requests_sent (t ++ t') = (requests_sent t + requests_sent t')%nat.
Proof. unfold requests_sent. now rewrite filter_app, length_app. Qed.

Lemma requests_sent_bind {A B : Type} (m : Py A) (k : A -> Py B) (n n' : nat) :
  (requests_sent (events m) <= n)%nat ->
  (forall a, (requests_sent (events (k a)) <= n')%nat) ->
  (requests_sent (events (bind m k)) <= n + n')%nat.
Proof.
  destruct m as [t [e|a]]; simpl; intros Ht Hk; [lia|].
  specialize (Hk a). destruct (k a) as [t' r]. simpl in *.
  rewrite requests_sent_app. lia.
Qed.

Lemma no_request_sent (t : list event) :
  Forall (fun ev => is_request ev = false) t -> requests_sent t = 0%nat.
Proof.
  unfold requests_sent. induction 1 as [|ev t Hev _ IH]; [reflexivity|].
  simpl. now rewrite Hev.
Qed.

Section DefaultRun.
Context `{Runtime}.

Lemma analyze_sends_nothing df :
  requests_sent (events (analyze_currency_data df)) = 0%nat.
Proof.
  apply no_request_sent. eapply Forall_impl; [|apply analyze_prints_only].
  now intros [].
Qed.

Lemma plot_sends_nothing df currency_name save_path :
  requests_sent (events (plot_currency_rate df currency_name save_path)) = 0%nat.
Proof.
  apply no_request_sent. eapply Forall_impl; [|apply plot_draws_and_prints].
  now intros [].
Qed.

Lemma get_currency_rate_sends_at_most_one currency_code days :
  (requests_sent (events (get_currency_rate currency_code days)) <= 1)%nat.
Proof.
  destruct (get_currency_rate_events currency_code days)
    as [-> | (m & u & q & m' & ->)]; unfold requests_sent; simpl; lia.
Qed.

(** X15.  The run without arguments sends at most two requests and never
    writes the CSV file: the export is done by [main] only, which that run
    does not call. *)
Theorem default_run_never_exports :
  Forall not_export (events dunder_main) /\
  (requests_sent (events dunder_main) <= 2)%nat.
Proof.
  unfold dunder_main. split.
  - apply Forall_bind; [repeat constructor|]. intros _ _.
    apply Forall_bind; [apply get_currency_rate_not_export|].
    intros [usd|] _; [|constructor].
    apply Forall_bind; [apply analyze_not_export|]. intros _ _.
    apply Forall_bind; [apply plot_not_export|]. intros _ _.
    apply Forall_bind; [repeat constructor|]. intros _ _.
    apply Forall_bind; [apply get_currency_rate_not_export|].
    intros [eur|] _; [|constructor].
    apply Forall_bind; [apply analyze_not_export|]. intros _ _.
    apply plot_not_export.
  - change 2%nat with (0 + (1 + (0 + (0 + (0 + (1 + (0 + 0)))))))%nat.
    apply requests_sent_bind; [unfold requests_sent; simpl; lia|]. intros _.
    apply requests_sent_bind; [apply get_currency_rate_sends_at_most_one|].
    intros [usd|]; [|unfold requests_sent; simpl; lia].
    apply requests_sent_bind; [now rewrite analyze_sends_nothing|]. intros _.
    apply requests_sent_bind; [now rewrite plot_sends_nothing|]. intros _.
    apply requests_sent_bind; [unfold requests_sent; simpl; lia|]. intros _.
    apply requests_sent_bind; [apply get_currency_rate_sends_at_most_one|].
    intros [eur|]; [|unfold requests_sent; simpl; lia].
    apply requests_sent_bind; [now rewrite analyze_sends_nothing|]. intros _.
    now rewrite plot_sends_nothing.
Qed.

(** X16.  In the run without arguments nothing catches what the chart
    raises: when [plot_currency_rate] raises on the USD frame, that
    exception ends the run, and EUR is not asked for. *)
Theorem default_run_stops_at_chart_failure (t : list event) (r : row)
  (rs : list row) (e : exn) :
  get_currency_rate "R01235" 30 = (t, inr (Some (Frame (r :: rs)))) ->
  outcome (plot_currency_rate (Frame (r :: rs)) "USD/RUB"
             (Some "usd_rub_chart.png")) = inl e ->
  outcome dunder_main = inl e /\
  forall u params,
    In (HttpGet u params) (events dunder_main) ->
    assoc "VAL_NM_RQ" params = Some "R01235".
Proof.
  intros Husd Hplot.
  assert (Hrun : dunder_main =
    (Print MsgBanner :: t
     ++ events (analyze_currency_data (Some (Frame (r :: rs))))
     ++ events (plot_currency_rate (Frame (r :: rs)) "USD/RUB"
                  (Some "usd_rub_chart.png")), inl e)).
  { unfold dunder_main.
    cbn -[get_currency_rate analyze_currency_data plot_currency_rate].
    rewrite Husd.
    cbn -[get_currency_rate analyze_currency_data plot_currency_rate].
    rewrite analyze_rows.
    cbn -[get_currency_rate analyze_currency_data plot_currency_rate].
    destruct (plot_currency_rate _ _ _) as [tp [e'|[]]]; simpl in Hplot;
      [|discriminate].
    injection Hplot as ->. reflexivity. }
  rewrite Hrun. split; [reflexivity|].
  intros u params. unfold events at 1. cbn [fst].
  intros [E|Hin]; [discriminate|].
  apply in_app_or in Hin as [Hin|Hin].
  - apply (get_currency_rate_requests "R01235" 30 u). now rewrite Husd.
  - exfalso. apply in_app_or in Hin as [Hin|Hin].
    + pose proof (analyze_prints_only (Some (Frame (r :: rs)))) as Hp.
      rewrite Forall_forall in Hp. apply (Hp _ Hin).
    + pose proof (plot_draws_and_prints (Frame (r :: rs)) "USD/RUB"
                    (Some "usd_rub_chart.png")) as Hp.
      rewrite Forall_forall in Hp. apply (Hp _ Hin).
Qed.

End DefaultRun.

(** ** The decimal comma *)

(** X17.  Turning the decimal comma into a period replaces every comma of
    the text, keeps its length, and leaves a text without comma as it is. *)
Theorem replace_comma (s : string) :
  contains "," (replace "," "." s) = false /\
  String.length (replace "," "." s) = String.length s /\
  (contains "," s = false -> replace "," "." s = s).
Proof.
  induction s as [|c s (IHc & IHl & IHs)]; [repeat split|].
  simpl. destruct (Ascii.eqb c ",") eqn:Hc; simpl.
  - repeat split; [exact IHc | now rewrite IHl | discriminate].
  - rewrite Hc. simpl. repeat split; [exact IHc | now rewrite IHl |].
    intros Hs. now rewrite (IHs Hs).
Qed.

(** ** The effects of [main] on the reference runtime *)

Lemma main_without_data_witness :
  @main Fixture.offline {| currency := "GBP"; days := 7; output := "gbp.png" |} =
  (Print (MsgAnalyzing "GBP/RUB" 7) ::
   [Print (MsgRequesting "25/01/2024" "01/02/2024");
    HttpGet url [("date_req1", "25/01/2024"); ("date_req2", "01/02/2024");
                 ("VAL_NM_RQ", "R01035")];
    Print (MsgFetchError ConnectionError)] ++ [Print MsgNoData], inr tt) /\
  Forall console_or_network
    (events (@main Fixture.offline
               {| currency := "GBP"; days := 7; output := "gbp.png" |})).
Proof.
  apply (@main_without_data Fixture.offline
           {| currency := "GBP"; days := 7; output := "gbp.png" |} "R01035").
  - reflexivity.
  - reflexivity.
Defined.

Lemma main_chart_failure_loses_export_witness :
  outcome (@main read_only_disk
             {| currency := "USD"; days := 30; output := "currency_chart.png" |})
  = inl OSError /\
  Forall not_export
    (events (@main read_only_disk
               {| currency := "USD"; days := 30; output := "currency_chart.png" |})).
Proof.
  apply (@main_chart_failure_loses_export read_only_disk
           {| currency := "USD"; days := 30; output := "currency_chart.png" |}
           "R01235"
           [Print (MsgRequesting "02/01/2024" "01/02/2024");
            HttpGet url [("date_req1", "02/01/2024"); ("date_req2", "01/02/2024");
                         ("VAL_NM_RQ", "R01235")];
            Print (MsgReceived 3)]
           {| date := 738886; rate := 75.5 |}
           [{| date := 738887; rate := 76.2 |};
            {| date := 738888; rate := 75.9 |}]).
  - reflexivity.
  - reflexivity.
  - reflexivity.
Defined.

Lemma main_exports_returned_frame_witness :
  exists before,
    @main Fixture.online
      {| currency := "USD"; days := 30; output := "currency_chart.png" |} =
    (before ++
     [ToCsv "usd_rates.csv"
        (@csv_text Fixture.online
           (Frame [{| date := 738886; rate := 75.5 |};
                   {| date := 738887; rate := 76.2 |};
                   {| date := 738888; rate := 75.9 |}]));
      Print (MsgDataSaved "usd_rates.csv")], inr tt).
Proof.
  eexists.
  rewrite (@main_exports_returned_frame Fixture.online
           {| currency := "USD"; days := 30; output := "currency_chart.png" |}
           "R01235"
           [Print (MsgRequesting "02/01/2024" "01/02/2024");
            HttpGet url [("date_req1", "02/01/2024"); ("date_req2", "01/02/2024");
                         ("VAL_NM_RQ", "R01235")];
            Print (MsgReceived 3)]
           {| date := 738886; rate := 75.5 |}
           [{| date := 738887; rate := 76.2 |};
            {| date := 738888; rate := 75.9 |}]
           eq_refl eq_refl eq_refl eq_refl).
  rewrite app_comm_cons, !app_assoc. reflexivity.
Defined.

Lemma default_run_stops_at_chart_failure_witness :
  outcome (@dunder_main read_only_disk) = inl OSError /\
  forall u params,
    In (HttpGet u params) (events (@dunder_main read_only_disk)) ->
    assoc "VAL_NM_RQ" params = Some "R01235".
Proof.
  apply (@default_run_stops_at_chart_failure read_only_disk
           [Print (MsgRequesting "02/01/2024" "01/02/2024");
            HttpGet url [("date_req1", "02/01/2024"); ("date_req2", "01/02/2024");
                         ("VAL_NM_RQ", "R01235")];
            Print (MsgReceived 3)]
           {| date := 738886; rate := 75.5 |}
           [{| date := 738887; rate := 76.2 |};
            {| date := 738888; rate := 75.9 |}] OSError).
  - reflexivity.
  - reflexivity.
Defined.

(** ** Which error is reported *)

Section ReportedError.
Context `{Runtime}.

(** The run of a call whose answer arrived: the last line tells what the
    parsing phase made of the body. *)
Lemma get_currency_rate_fetched_run currency_code days response :
  Fetched currency_code days response ->
  exists start_date,
    window days = inr start_date /\
    get_currency_rate currency_code days =
    ([Print (MsgRequesting (strftime start_date "%d/%m/%Y")
                           (strftime now "%d/%m/%Y"));
      HttpGet url (query start_date currency_code);
      Print (match parse (content response) with
             | inl e => MsgFetchError e
             | inr df => MsgReceived (pd.len df)
             end)],
     inr (or_None (parse (content response)))).
Proof.
  intros (start_date & Hdelta & Hstart & Hget & Hstatus).
  exists start_date. split; [unfold window; now rewrite Hdelta|].
  unfold get_currency_rate, parse. rewrite Hdelta.
  cbn [lift bind]. rewrite Hstart. cbn [lift bind app].
  unfold requests.get. fold (query start_date currency_code). rewrite Hget.
  cbn -[Z.leb Z.ltb andb]. unfold requests.raise_for_status, outcome in *.
  destruct ((400 <=? status_code response) && (status_code response <? 600));
    [discriminate|].
  cbn. destruct (fromstring (content response)) as [e|root]; [reflexivity|].
  cbn. destruct (for_records (findall root "Record") []) as [e|data]; [reflexivity|].
  cbn. destruct (sort_values (pd.DataFrame data)) as [e|df]; reflexivity.
Qed.

Lemma for_records_first_bad good : forall bad rest rs data e,
  Forall2 (fun record r => read_record record = inr r) good rs ->
  read_record bad = inl e ->
  for_records (good ++ bad :: rest) data = inl e.
Proof.
  induction good as [|g good IH]; intros bad rest rs data e Hgood Hbad;
    inversion Hgood; subst; simpl.
  - now rewrite Hbad.
  - rewrite H2. simpl. eapply IH; eauto.
Qed.

(** X18.  The loop stops at the first record it cannot read: the error
    printed is the one that record raised, whatever comes after it, and
    the rows read before it are dropped. *)
Theorem first_bad_record_is_reported currency_code days response root
  good bad rest rs e :
  Fetched currency_code days response ->
  fromstring (content response) = inr root ->
  findall root "Record" = good ++ bad :: rest ->
  Forall2 WellFormed good rs ->
  read_record bad = inl e ->
  outcome (get_currency_rate currency_code days) = inr None /\
  In (Print (MsgFetchError e)) (events (get_currency_rate currency_code days)).
Proof.
  intros Hfetched Hroot Hrecords Hgood Hbad.
  destruct (get_currency_rate_fetched_run _ _ _ Hfetched) as (start_date & _ & ->).
  assert (Hparse : parse (content response) = inl e).
  { unfold parse. rewrite Hroot. simpl. rewrite Hrecords.
    rewrite (for_records_first_bad good bad rest rs [] e); [reflexivity| |exact Hbad].
    eapply Forall2_impl; [|exact Hgood]. intros a b. apply read_record_well_formed. }
  rewrite Hparse. split; [reflexivity|]. simpl. auto.
Qed.

End ReportedError.

Lemma first_bad_record_is_reported_witness :
  outcome (@get_currency_rate Fixture.online "R00001" 30) = inr None /\
  In (Print (MsgFetchError AttributeError))
     (events (@get_currency_rate Fixture.online "R00001" 30)).
Proof.
  apply (@first_bad_record_is_reported Fixture.online "R00001" 30
           {| status_code := 200; content := Fixture.value_missing_xml |}
           Fixture.value_missing
           [Fixture.record "01.01.2024" "75,5"]
           (Fixture.element "Record" [("Date", "02.01.2024")] None [])
           [Fixture.record "03.01.2024" "75,9"]
           [{| date := 738886; rate := 75.5 |}]).
  - now apply fixture_fetched.
  - reflexivity.
  - reflexivity.
  - repeat constructor; apply read_record_well_formed; reflexivity.
  - reflexivity.
Defined.

(** ** The export and its re-read *)

Section ExportRoundTrip.
Context `{Runtime}.



End ExportRoundTrip.

(** The codecs of [Codec.runtime] are read back whatever the value. *)










